(** * Data-driven API test engine: shallow embedding and verified properties

    Source files embedded here (paths relative to [src/jinx/python]):
    - [pytest/PyTest/tools/manage.py]            ([Manage])
    - [Eve_Pytest-main/tools/request_tool.py]    ([Requests])
    - [Eve_Pytest-main/tools/reponse_tool.py]    ([Response])
    - [Eve_Pytest-main/tools/excel_tool.py]      ([ExcelPack])
    - [Eve_Pytest-main/tools/yaml_tool.py]       ([YamlPack.load_test_cases])
    - [Eve_Pytest-main/testCase/api/test_api.py] ([TestExcel.test_excel_api])

    Python dictionaries whose shape is dynamic (a case, request headers, a
    parsed JSON body) are values of [pyval]; dictionaries built with a fixed
    set of keys by the engine itself (the response summary, the result
    record) are records.  Exceptions are explicit: a computation completes
    with [Ok] or [Raise], and stateful code threads a [World] holding the
    cached DataFrame, the workbook file and the trace of HTTP calls.
    Logging calls are left out: they neither return nor change a value. *)

From stdpp Require Import gmap strings list pretty.
From Stdlib Require Import ZArith Lia Ascii.

Set Warnings "-register-all".
Open Scope string_scope.
Open Scope Z_scope.

(** ** The fragment of the Python runtime the engine relies on *)
Module Py.

Inductive pyval : Type :=
| PNone
| PBool (b : bool)
| PInt (z : Z)
| PStr (s : string)
| PList (items : list pyval)
| PDict (entries : list (string * pyval)).

(** Exceptions, all of them subclasses of Python's [Exception].
    [Timeout] and [ConnectionError] are the ones of the requests library;
    a JSON decoding error is a [ValueError]. *)
Inductive exn : Type :=
| KeyError (key : string)
| TypeError (msg : string)
| AttributeError (msg : string)
| IndexError (msg : string)
| ValueError (msg : string)
| SyntaxError (msg : string)
| Timeout (msg : string)
| ConnectionError (msg : string)
| AssertionError (msg : string).

Inductive completion (A : Type) : Type :=
| Ok (a : A)
| Raise (e : exn).
Arguments Ok {A} a.
Arguments Raise {A} e.

Definition type_name (v : pyval) : string :=
  match v with
  | PNone => "NoneType"
  | PBool _ => "bool"
  | PInt _ => "int"
  | PStr _ => "str"
  | PList _ => "list"
  | PDict _ => "dict"
  end.

(** *** Strings

    A [str] is held as the bytes of its UTF-8 encoding. *)

Definition squote : ascii := ascii_of_nat 39.
Definition dquote : ascii := ascii_of_nat 34.
Definition backslash : ascii := ascii_of_nat 92.
Definition newline : ascii := ascii_of_nat 10.

Fixpoint startswith (p s : string) : bool :=
  match p, s with
  | EmptyString, _ => true
  | String a p', String b s' => if Ascii.eqb a b then startswith p' s' else false
  | String _ _, EmptyString => false
  end.

(** [contains needle hay] is Python's [needle in hay] on two strings. *)
Fixpoint contains (needle hay : string) : bool :=
  startswith needle hay ||
  match hay with
  | EmptyString => false
  | String _ hay' => contains needle hay'
  end.

Fixpoint has_char (c : ascii) (s : string) : bool :=
  match s with
  | EmptyString => false
  | String a s' => Ascii.eqb a c || has_char c s'
  end.

(** [str.lower] on ASCII letters; other bytes are kept. *)
Definition lower_ascii (c : ascii) : ascii :=
  let n := nat_of_ascii c in
  if (65 <=? n)%nat && (n <=? 90)%nat then ascii_of_nat (n + 32) else c.

Fixpoint lower (s : string) : string :=
  match s with
  | EmptyString => EmptyString
  | String c s' => String (lower_ascii c) (lower s')
  end.

(** White space as [str.strip] sees it.  In ASCII: tab, line feed, vertical
    tab, form feed, carriage return, the separators 28 to 31, and space. *)
Definition is_space (c : ascii) : bool :=
  let n := nat_of_ascii c in
  ((9 <=? n)%nat && (n <=? 13)%nat) || ((28 <=? n)%nat && (n <=? 32)%nat).

(** Beyond ASCII, in the UTF-8 bytes a string is made of: U+0085 and U+00A0
    take two bytes; U+1680, U+2000 to U+200A, U+2028, U+2029, U+202F, U+205F
    and U+3000 take three. *)
Definition is_space2 (a b : ascii) : bool :=
  let y := nat_of_ascii b in
  (nat_of_ascii a =? 194)%nat && ((y =? 133)%nat || (y =? 160)%nat).

Definition is_space3 (a b c : ascii) : bool :=
  let x := nat_of_ascii a in
  let y := nat_of_ascii b in
  let z := nat_of_ascii c in
  ((x =? 225)%nat && (y =? 154)%nat && (z =? 128)%nat)
  || ((x =? 226)%nat && (y =? 128)%nat &&
      (((128 <=? z)%nat && (z <=? 138)%nat) || (z =? 168)%nat || (z =? 169)%nat
       || (z =? 175)%nat))
  || ((x =? 226)%nat && (y =? 129)%nat && (z =? 159)%nat)
  || ((x =? 227)%nat && (y =? 128)%nat && (z =? 128)%nat).

(** What follows the white-space character a string starts with, if it
    starts with one. *)
Definition space_head (s : string) : option string :=
  match s with
  | EmptyString => None
  | String a s1 =>
      if is_space a then Some s1 else
      match s1 with
      | EmptyString => None
      | String b s2 =>
          if is_space2 a b then Some s2 else
          match s2 with
          | EmptyString => None
          | String c s3 => if is_space3 a b c then Some s3 else None
          end
      end
  end.

Fixpoint lstrip (s : string) : string :=
  match s with
  | EmptyString => EmptyString
  | String a s1 =>
      if is_space a then lstrip s1 else
      match s1 with
      | EmptyString => s
      | String b s2 =>
          if is_space2 a b then lstrip s2 else
          match s2 with
          | EmptyString => s
          | String c s3 => if is_space3 a b c then lstrip s3 else s
          end
      end
  end.

(** A tail made of white space only is dropped. *)
Fixpoint rstrip (s : string) : string :=
  match s with
  | EmptyString => EmptyString
  | String a s' =>
      match lstrip s with
      | EmptyString => EmptyString
      | String _ _ => String a (rstrip s')
      end
  end.

Definition strip (s : string) : string := rstrip (lstrip s).

Definition hex_digit (n : nat) : ascii :=
  if (n <? 10)%nat then ascii_of_nat (48 + n) else ascii_of_nat (87 + n).

(** One character of [repr] of a string quoted with [q]. *)
Definition escape_char (q c : ascii) : string :=
  let n := nat_of_ascii c in
  if Ascii.eqb c backslash then String backslash (String backslash EmptyString)
  else if Ascii.eqb c q then String backslash (String q EmptyString)
  else if (n =? 10)%nat then String backslash "n"
  else if (n =? 13)%nat then String backslash "r"
  else if (n =? 9)%nat then String backslash "t"
  else if (n <? 32)%nat || (n =? 127)%nat then
    String backslash (String "x" (String (hex_digit (n / 16)) (String (hex_digit (n mod 16)) EmptyString)))
  else String c EmptyString.

Fixpoint escape (q : ascii) (s : string) : string :=
  match s with
  | EmptyString => EmptyString
  | String c s' => escape_char q c +:+ escape q s'
  end.

(** [repr] of a string: single quotes, unless the text has a single quote
    and no double quote.  Bytes above 127 (UTF-8 text) are kept. *)
Definition repr_str (s : string) : string :=
  let q := if has_char squote s && negb (has_char dquote s) then dquote else squote in
  String q (escape q s +:+ String q EmptyString).

Fixpoint join (sep : string) (l : list string) : string :=
  match l with
  | [] => EmptyString
  | [x] => x
  | x :: l' => x +:+ sep +:+ join sep l'
  end.

Fixpoint py_repr (v : pyval) : string :=
  match v with
  | PNone => "None"
  | PBool true => "True"
  | PBool false => "False"
  | PInt z => pretty z
  | PStr s => repr_str s
  | PList items => "[" +:+ join ", " (map py_repr items) +:+ "]"
  | PDict entries =>
      "{" +:+ join ", " (map (fun '(k, x) => repr_str k +:+ ": " +:+ py_repr x) entries) +:+ "}"
  end.

(** [str(v)] *)
Definition py_str (v : pyval) : string :=
  match v with
  | PStr s => s
  | _ => py_repr v
  end.

(** *** Dictionaries and operators *)

Fixpoint assoc_get (k : string) (d : list (string * pyval)) : option pyval :=
  match d with
  | [] => None
  | (k', x) :: d' => if String.eqb k k' then Some x else assoc_get k d'
  end.

(** [d[k] = x]: an existing key keeps its position, a new one goes last. *)
Fixpoint assoc_set (k : string) (x : pyval) (d : list (string * pyval))
  : list (string * pyval) :=
  match d with
  | [] => [(k, x)]
  | (k', y) :: d' => if String.eqb k k' then (k', x) :: d' else (k', y) :: assoc_set k x d'
  end.

(** [v[k]] for a string key [k].  The message for a string is the one of
    Python 3.11 and later; earlier versions stop after the word integers. *)
Definition py_getitem (v : pyval) (k : string) : completion pyval :=
  match v with
  | PDict d =>
      match assoc_get k d with
      | Some x => Ok x
      | None => Raise (KeyError k)
      end
  | PStr _ => Raise (TypeError "string indices must be integers, not 'str'")
  | PList _ => Raise (TypeError "list indices must be integers or slices, not str")
  | _ => Raise (TypeError ("'" +:+ type_name v +:+ "' object is not subscriptable"))
  end.

(** [v[k] = x]; the updated object is returned. *)
Definition py_setitem (v : pyval) (k : string) (x : pyval) : completion pyval :=
  match v with
  | PDict d => Ok (PDict (assoc_set k x d))
  | PList _ => Raise (TypeError "list indices must be integers or slices, not str")
  | _ => Raise (TypeError ("'" +:+ type_name v +:+ "' object does not support item assignment"))
  end.

(** [a == b].  A bool is an int; dictionaries compare without order. *)
Fixpoint py_eq (a b : pyval) {struct a} : bool :=
  match a, b with
  | PNone, PNone => true
  | PBool x, PBool y => Bool.eqb x y
  | PBool x, PInt y => Z.b2z x =? y
  | PInt x, PBool y => x =? Z.b2z y
  | PInt x, PInt y => x =? y
  | PStr x, PStr y => String.eqb x y
  | PList xs, PList ys =>
      (fix go (xs ys : list pyval) : bool :=
         match xs, ys with
         | [], [] => true
         | x :: xs', y :: ys' => py_eq x y && go xs' ys'
         | _, _ => false
         end) xs ys
  | PDict d1, PDict d2 =>
      (length d1 =? length d2)%nat &&
      forallb (fun '(k, x) =>
                 match assoc_get k d2 with
                 | Some y => py_eq x y
                 | None => false
                 end) d1
  | _, _ => false
  end.

(** Truth value of an object. *)
Definition py_truthy (v : pyval) : bool :=
  match v with
  | PNone => false
  | PBool b => b
  | PInt z => negb (z =? 0)
  | PStr s => negb (String.eqb s "")
  | PList l => match l with [] => false | _ => true end
  | PDict d => match d with [] => false | _ => true end
  end.

(** [x in s] where [s] is a string. *)
Definition py_in (x : pyval) (s : string) : completion bool :=
  match x with
  | PStr needle => Ok (contains needle s)
  | _ => Raise (TypeError ("'in <string>' requires string as left operand, not " +:+ type_name x))
  end.

(** [s.lower()] *)
Definition py_lower (v : pyval) : completion string :=
  match v with
  | PStr s => Ok (lower s)
  | _ => Raise (AttributeError ("'" +:+ type_name v +:+ "' object has no attribute 'lower'"))
  end.

(** [str(e)]: a [KeyError] prints the repr of its key. *)
Definition exn_str (e : exn) : string :=
  match e with
  | KeyError k => repr_str k
  | TypeError m | AttributeError m | IndexError m | ValueError m
  | SyntaxError m | Timeout m | ConnectionError m | AssertionError m => m
  end.

End Py.
Import Py.

(** ** State and exceptions *)

(** Cells of the cached DataFrame: [NaN] is an empty spreadsheet cell. *)
Inductive cell : Type :=
| NaN
| Val (v : pyval).

Abbreviation DataFrame := (list (list cell)).

(** The part of an openpyxl font the engine sets or could overwrite. *)
Record Font : Type := {
  font_name : option string;
  font_size : option Z;
  bold : bool;
  italic : bool;
  color : option string
}.

(** A worksheet cell: its value ([PNone] when empty) and its font. *)
Record XCell : Type := {
  value : pyval;
  font : Font
}.

(** The keyword under which [session.request] receives the payload. *)
Inductive payload_kw : Type := KwParams | KwData | KwJson | KwFiles.

Record HttpCall : Type := {
  call_method : pyval;
  call_url : pyval;
  call_kw : payload_kw;
  call_payload : pyval;
  call_headers : pyval
}.

(** What the engine reads of a [requests.Response]: [json] is the outcome
    of [res.json()], [elapsed] is in microseconds. *)
Record HttpResponse : Type := {
  status_code : Z;
  json : completion pyval;
  elapsed : Z
}.

(** [df] is [ExcelPack._df] once read, [book] the active sheet of the
    workbook file keyed by (row, column) from 1, [sent] the calls made
    through the session, oldest first. *)
Record World : Type := {
  df : DataFrame;
  book : gmap (Z * Z) XCell;
  sent : list HttpCall
}.

Definition M (A : Type) : Type := World -> completion A * World.

Definition ret {A} (a : A) : M A := fun w => (Ok a, w).

Definition raise {A} (e : exn) : M A := fun w => (Raise e, w).

Definition bind {A B} (m : M A) (f : A -> M B) : M B :=
  fun w =>
    match m w with
    | (Ok a, w') => f a w'
    | (Raise e, w') => (Raise e, w')
    end.

Definition lift {A} (c : completion A) : M A := fun w => (c, w).

(** [try: m  except Exception as e: h e]; what [m] did to the state before
    it raised stays done. *)
Definition try_except {A} (m : M A) (h : exn -> M A) : M A :=
  fun w =>
    match m w with
    | (Ok a, w') => (Ok a, w')
    | (Raise e, w') => h e w'
    end.

Notation "x <- m ;; k" := (bind m (fun x => k))
  (at level 100, m at next level, right associativity).
Notation "m ;;; k" := (bind m (fun _ => k))
  (at level 100, right associativity).

Fixpoint mapM {A B} (f : A -> M B) (l : list A) : M (list B) :=
  match l with
  | [] => ret []
  | a :: l' => b <- f a ;; bs <- mapM f l' ;; ret (b :: bs)
  end.

Definition get_df : M DataFrame := fun w => (Ok (df w), w).

Definition put_df (d : DataFrame) : M unit :=
  fun w => (Ok tt, {| df := d; book := book w; sent := sent w |}).

(** [load_workbook(file_name).active] and [workbook.save(file_name)]. *)
Definition load_workbook : M (gmap (Z * Z) XCell) := fun w => (Ok (book w), w).

Definition save (ws : gmap (Z * Z) XCell) : M unit :=
  fun w => (Ok tt, {| df := df w; book := ws; sent := sent w |}).

Fixpoint lookup_key {V} (k : string) (d : list (string * V)) : option V :=
  match d with
  | [] => None
  | (k', x) :: d' => if String.eqb k k' then Some x else lookup_key k d'
  end.

(** ** The engine *)
Section Engine.

(** Collaborators outside the engine: Python's [eval], the two constants of
    [common/consts.py] read from the configuration file, the HTTP session of
    the requests library, and the printing of [timedelta.total_seconds()]
    (a float) for a duration in microseconds. *)
Context (py_eval : string -> completion pyval)
        (API_HOST TOKEN : string)
        (session_request : HttpCall -> completion HttpResponse)
        (seconds_repr : Z -> string).

(** *** request_tool.py *)

(** [self.session.request(...)]: the call is recorded, then answered. *)
Definition request (call : HttpCall) : M HttpResponse :=
  fun w => (session_request call,
            {| df := df w; book := book w; sent := sent w ++ [call] |}).

Definition send_request (url method data_type headers data : pyval)
  : M (option HttpResponse) :=
  try_except
    (if py_eq data_type (PStr "params") then
       res <- request {| call_method := method; call_url := url; call_kw := KwParams;
                         call_payload := data; call_headers := headers |} ;;
       ret (Some res)
     else if py_eq data_type (PStr "data") then
       res <- request {| call_method := method; call_url := url; call_kw := KwData;
                         call_payload := data; call_headers := headers |} ;;
       ret (Some res)
     else if py_eq data_type (PStr "json") then
       res <- request {| call_method := method; call_url := url; call_kw := KwJson;
                         call_payload := data; call_headers := headers |} ;;
       ret (Some res)
     else if py_eq data_type (PStr "file") then
       res <- request {| call_method := method; call_url := url; call_kw := KwFiles;
                         call_payload := data; call_headers := headers |} ;;
       ret (Some res)
     else ret None)
    (fun _ => ret None).

(** *** reponse_tool.py *)

(** The dictionary built by [Response.result]; [time_total] is kept in
    microseconds. *)
Record ResponseDict : Type := {
  code : Z;
  body : string;
  time_total : Z
}.

Definition Response_result (res : option HttpResponse) : M (option ResponseDict) :=
  try_except
    (match res with
     | None => raise (AttributeError "'NoneType' object has no attribute 'status_code'")
     | Some r =>
         parsed <- lift (json r) ;;
         ret (Some {| code := status_code r; body := py_str parsed; time_total := elapsed r |})
     end)
    (fun _ => ret None).

(** *** manage.py *)

(** Line 37: [Response().result(...)] applied to what
    [Requests().send_request] returns for the fields of [request_data]. *)
Definition dispatch (url method data_type headers data : pyval)
  : M (option ResponseDict) :=
  res <- send_request url method data_type headers data ;;
  Response_result res.

(** The value under ['response'] of a result: [None], the summary
    dictionary, or the error text. *)
Inductive response_value : Type :=
| Summary (r : ResponseDict)
| Text (s : string).

Record ResultDict : Type := {
  r_name : pyval;
  r_result : string;
  r_response : option response_value
}.

(** The Python defaults are [status='skip'] and [response=None]. *)
Definition create_result (name : pyval) (status : string)
  (response : option response_value) : ResultDict :=
  {| r_name := name; r_result := status; r_response := response |}.

(** [case[k1][k2]] *)
Definition getitem2 (case : pyval) (k1 k2 : string) : M pyval :=
  x <- lift (py_getitem case k1) ;; lift (py_getitem x k2).

(** [response['code']] and [response['body']] on what [Response.result]
    returned. *)
Definition response_code (response : option ResponseDict) : completion Z :=
  match response with
  | Some r => Ok (code r)
  | None => Raise (TypeError "'NoneType' object is not subscriptable")
  end.

Definition response_body (response : option ResponseDict) : completion string :=
  match response with
  | Some r => Ok (body r)
  | None => Raise (TypeError "'NoneType' object is not subscriptable")
  end.

Definition error_prefix : string := "执行用例异常: ".

(** The [try] block of [execute_test_case]. *)
Definition execute_body (case : pyval) : M ResultDict :=
  url <- getitem2 case "request" "url" ;;
  method <- getitem2 case "request" "method" ;;
  data <- getitem2 case "request" "data" ;;
  headers <- getitem2 case "request" "headers" ;;
  data_type <- lift (py_getitem case "type") ;;
  response <- dispatch url method data_type headers data ;;
  expected_code <- getitem2 case "expected" "status_code" ;;
  actual_code <- lift (response_code response) ;;
  expected_msg <- getitem2 case "expected" "msg" ;;
  body1 <- lift (response_body response) ;;
  actual_msg <- lift (py_getitem (PStr body1) "msg") ;;
  expected_data <- getitem2 case "expected" "data" ;;
  body2 <- lift (response_body response) ;;
  found <- lift (py_in expected_data (py_str (PStr body2))) ;;
  let validation_results :=
    [py_eq expected_code (PInt actual_code); py_eq expected_msg actual_msg; found] in
  let status := if forallb id validation_results then "pass" else "fail" in
  name <- lift (py_getitem case "name") ;;
  ret (create_result name status (option_map Summary response)).

Definition execute_test_case (case : pyval) : M ResultDict :=
  try_except (execute_body case)
    (fun e =>
       let error_msg := error_prefix +:+ exn_str e in
       name <- lift (py_getitem case "name") ;;
       ret (create_result name "fail" (Some (Text error_msg)))).

(** *** excel_tool.py *)

(** [pd.read_excel(self.file_name)] with its defaults, on the rows of the
    sheet from the top as pandas reads their cells: the first row names the
    columns and is no row of the DataFrame; the rows after it are its rows,
    in the order of the sheet.  The property [df] reads the file once and
    keeps the DataFrame, which is the [df] of the state. *)
Definition read_excel (table : list (list cell)) : DataFrame := tail table.

Definition COLUMNS : list (string * nat) :=
  [("name", 0%nat); ("run", 1%nat); ("token", 2%nat); ("url", 3%nat);
   ("data", 4%nat); ("method", 5%nat); ("type", 6%nat); ("header", 7%nat);
   ("status_code", 8%nat); ("expect_msg", 9%nat); ("expect_data", 10%nat);
   ("result", 11%nat); ("response", 12%nat)].

Definition STYLES : list (string * (Z * string)) :=
  [("pass", (3, "00FF00")); ("fail", (4, "FF0000")); ("skip", (6, "800080"))].

(** [self.COLUMNS[col_name]] *)
Definition COLUMNS_getitem (col_name : string) : completion nat :=
  match lookup_key col_name COLUMNS with
  | Some col => Ok col
  | None => Raise (KeyError col_name)
  end.

(** Position addressed by an integer of [iloc] on an axis of length [n]:
    a negative integer counts from the end. *)
Definition iloc_pos (n : nat) (i : Z) : option nat :=
  if (0 <=? i) && (i <? Z.of_nat n) then Some (Z.to_nat i)
  else if (i <? 0) && (- Z.of_nat n <=? i) then Some (Z.to_nat (Z.of_nat n + i))
  else None.

(** The IndexError of numpy, whose arrays hold the columns, for position
    [i] on an axis of [n] entries. *)
Definition index_error (i : Z) (n : nat) : exn :=
  IndexError ("index " +:+ pretty i +:+ " is out of bounds for axis 0 with size "
              +:+ pretty (Z.of_nat n)).

Definition cannot_enlarge : exn := IndexError "iloc cannot enlarge its target object".

(** [df.iloc[row, col]] on two integers, which reads one scalar without a
    check by pandas; the rows of a DataFrame all have the same length. *)
Definition iloc_get (d : DataFrame) (row : Z) (col : nat) : completion cell :=
  match iloc_pos (length d) row with
  | Some r =>
      match d !! r with
      | Some cells =>
          match cells !! col with
          | Some c => Ok c
          | None => Raise (index_error (Z.of_nat col) (length cells))
          end
      | None => Raise (index_error row (length d))
      end
  | None => Raise (index_error row (length d))
  end.

(** What pandas decides when a value is stored, which depends on its version
    and on the types the columns got when the file was read:
    - [column_rejects col c] is the exception raised when column [col] does
      not take the value [c], and [None] when it takes it.  pandas 3 raises
      TypeError for a text stored in a column read from empty cells or from
      numbers only (float64, int64); pandas 2 converts the column and stores
      the text.
    - [listlike_rows n row col c] is, for a row indexer that is no integer
      (a list of positions, a mask), the positions of an axis of [n] rows at
      which [c] is stored in column [col], or the exception raised. *)
Context (column_rejects : nat -> cell -> option exn)
        (listlike_rows : nat -> pyval -> nat -> cell -> completion (list nat)).

(** The DataFrame with [c] in column [col] of the rows at positions [rs]. *)
Definition set_rows (rs : list nat) (col : nat) (c : cell) (d : DataFrame) : DataFrame :=
  imap (fun i cells => if bool_decide (i ∈ rs) then <[col := c]> cells else cells) d.

(** [df.iloc[row, col] = c]: an integer beyond the axis is refused before
    anything is stored, then the column has to take the value. *)
Definition iloc_set (d : DataFrame) (row : pyval) (col : nat) (c : cell)
  : completion DataFrame :=
  match row with
  | PInt z =>
      match iloc_pos (length d) z with
      | Some r =>
          match d !! r with
          | Some cells =>
              if (col <? length cells)%nat then
                match column_rejects col c with
                | Some e => Raise e
                | None => Ok (<[r := <[col := c]> cells]> d)
                end
              else Raise cannot_enlarge
          | None => Raise cannot_enlarge
          end
      | None => Raise cannot_enlarge
      end
  | _ =>
      match listlike_rows (length d) row col c with
      | Ok rs => Ok (set_rows rs col c d)
      | Raise e => Raise e
      end
  end.

(** [pd.notna(value)] and [str(value)] on a cell. *)
Definition notna (c : cell) : bool :=
  match c with
  | NaN => false
  | Val PNone => false
  | Val _ => true
  end.

Definition cell_str (c : cell) : string :=
  match c with
  | NaN => "nan"
  | Val v => py_str v
  end.

(** [str(value).strip() if pd.notna(value) else ''] *)
Definition cell_text (c : cell) : string :=
  if notna c then strip (cell_str c) else "".

Definition _get_cell_value (row : Z) (col_name : string) : M string :=
  col <- lift (COLUMNS_getitem col_name) ;;
  d <- get_df ;;
  value <- lift (iloc_get d row col) ;;
  ret (cell_text value).

(** The font of a cell openpyxl has just created. *)
Definition DEFAULT_FONT : Font :=
  {| font_name := Some "Calibri"; font_size := Some 11; bold := false;
     italic := false; color := None |}.

(** [worksheet.cell(row=row, column=column)]: the cell there, created empty
    when the sheet has none. *)
Definition sheet_cell (worksheet : gmap (Z * Z) XCell) (row column : Z)
  : completion XCell :=
  if (row <? 1) || (column <? 1) then
    Raise (ValueError "Row or column values must be at least 1")
  else Ok (default {| value := PNone; font := DEFAULT_FONT |} (worksheet !! (row, column))).

(** [isinstance(style, (int, str))] *)
Definition is_int_or_str (v : pyval) : bool :=
  match v with
  | PInt _ | PBool _ | PStr _ => true
  | _ => false
  end.

(** [row + 2]: a bool counts as 0 or 1, a text or a list can only be
    concatenated with its like. *)
Definition row_plus_2 (row : pyval) : completion Z :=
  match row with
  | PInt z => Ok (z + 2)
  | PBool b => Ok ((if b then 1 else 0) + 2)
  | PStr _ | PList _ =>
      Raise (TypeError ("can only concatenate " +:+ type_name row +:+ " (not "
                        +:+ String dquote ("int" +:+ String dquote (") to " +:+ type_name row))))
  | PNone | PDict _ =>
      Raise (TypeError ("unsupported operand type(s) for +: '" +:+ type_name row
                        +:+ "' and 'int'"))
  end.

Definition _write_cell (row : pyval) (col_name : string) (val : string) (style : pyval)
  : M unit :=
  col <- lift (COLUMNS_getitem col_name) ;;
  d <- get_df ;;
  d' <- lift (iloc_set d row col (Val (PStr val))) ;;
  put_df d' ;;;
  worksheet <- load_workbook ;;
  r <- lift (row_plus_2 row) ;;
  c <- lift (sheet_cell worksheet r (Z.of_nat col + 1)) ;;
  let c1 := {| value := PStr val; font := font c |} in
  let c2 :=
    if py_truthy style && is_int_or_str style then
      match lookup_key (py_str style) STYLES with
      | Some (_, rgb) =>
          {| value := value c1;
             font := {| font_name := None; font_size := None; bold := true;
                        italic := false; color := Some rgb |} |}
      | None => c1
      end
    else c1 in
  save (<[(r, Z.of_nat col + 1) := c2]> worksheet).

(** [eval(cell) if cell else dflt], the cell being read for the test and
    read again for [eval]. *)
Definition eval_cell (row : Z) (col_name : string) (dflt : pyval) : M pyval :=
  c <- _get_cell_value row col_name ;;
  if negb (String.eqb c "") then
    c' <- _get_cell_value row col_name ;; lift (py_eval c')
  else ret dflt.

(** One turn of the loop of [load_test_cases]. *)
Definition load_row (row : Z) : M pyval :=
  headers0 <- eval_cell row "header" (PDict []) ;;
  token0 <- _get_cell_value row "token" ;;
  headers <- (if String.eqb token0 "yes"
              then lift (py_setitem headers0 "Authorization" (PStr TOKEN))
              else ret headers0) ;;
  name <- _get_cell_value row "name" ;;
  run <- _get_cell_value row "run" ;;
  token <- _get_cell_value row "token" ;;
  type <- _get_cell_value row "type" ;;
  url <- _get_cell_value row "url" ;;
  method <- _get_cell_value row "method" ;;
  data <- eval_cell row "data" PNone ;;
  status_code <- _get_cell_value row "status_code" ;;
  msg <- _get_cell_value row "expect_msg" ;;
  expect_data <- _get_cell_value row "expect_data" ;;
  result <- _get_cell_value row "result" ;;
  response <- _get_cell_value row "response" ;;
  ret (PDict
         [("name", PStr name);
          ("run", PStr run);
          ("token", PStr token);
          ("type", PStr type);
          ("request", PDict [("url", PStr (API_HOST +:+ url));
                             ("method", PStr method);
                             ("headers", headers);
                             ("data", data)]);
          ("expected", PDict [("status_code", PStr status_code);
                              ("msg", PStr msg);
                              ("data", PStr expect_data)]);
          ("result", PDict [("result", PStr result);
                            ("response", PStr response)]);
          ("row", PInt row)]).

(** [for row in range(1, len(self.df))] *)
Definition load_test_cases : M (list pyval) :=
  d <- get_df ;;
  mapM load_row (map Z.of_nat (seq 1 (length d - 1))).

(** A row the loop can turn into a case: the thirteen columns are there,
    and the cells handed to [eval] evaluate, the header cell to a
    dictionary when the token is to be stored in it. *)
Definition evaluates (s : string) (need_dict : bool) : bool :=
  String.eqb s "" ||
  match py_eval s with
  | Ok (PDict _) => true
  | Ok _ => negb need_dict
  | Raise _ => false
  end.

Definition row_loadable (cells : list cell) : bool :=
  (13 <=? length cells)%nat &&
  evaluates (cell_text (nth 7 cells NaN)) (String.eqb (cell_text (nth 2 cells NaN)) "yes") &&
  evaluates (cell_text (nth 4 cells NaN)) false.

(** [str(result.get('response', ''))]: the key is always there, so the
    default is never used. *)
Definition summary_str (r : ResponseDict) : string :=
  "{'code': " +:+ pretty (code r) +:+ ", 'body': " +:+ repr_str (body r)
  +:+ ", 'time_total': " +:+ seconds_repr (time_total r) +:+ "}".

Definition response_str (response : option response_value) : string :=
  match response with
  | None => py_str PNone
  | Some (Text s) => s
  | Some (Summary r) => summary_str r
  end.

Definition write_to_excel (row : pyval) (result : ResultDict) : M unit :=
  try_except
    (_write_cell row "response" (response_str (r_response result)) PNone ;;;
     _write_cell row "result" (r_result result) (PStr (r_result result)))
    (fun _ => ret tt).

(** *** yaml_tool.py *)

Fixpoint chars (s : string) : list pyval :=
  match s with
  | EmptyString => []
  | String c s' => PStr (String c EmptyString) :: chars s'
  end.

(** [for a in v] *)
Definition py_iter (v : pyval) : completion (list pyval) :=
  match v with
  | PList l => Ok l
  | PDict d => Ok (map (fun kv => PStr (fst kv)) d)
  | PStr s => Ok (chars s)
  | _ => Raise (TypeError ("'" +:+ type_name v +:+ "' object is not iterable"))
  end.

(** [a.items()] *)
Definition py_items (v : pyval) : completion (list (string * pyval)) :=
  match v with
  | PDict d => Ok d
  | _ => Raise (AttributeError ("'" +:+ type_name v +:+ "' object has no attribute 'items'"))
  end.

(** [YamlPack.load_test_cases] on [self.data], the parsed document. *)
Definition yaml_load_test_cases (data : pyval) : M (list pyval) :=
  case <- lift (py_getitem data "Case") ;;
  entries <- lift (py_iter case) ;;
  found <- mapM (fun a =>
                   kvs <- lift (py_items a) ;;
                   ret (map snd (filter (fun kv => String.eqb (fst kv) "Test" = true) kvs)))
                entries ;;
  ret (concat found).

(** [YamlPack.__init__]: the text of the file goes through
    [Template(text).substitute(variable)] and then [yaml.safe_load].  The
    parser, and the message of the ValueError that [Template] raises for the
    delimiter at a given offset (it names a line and a column), are
    collaborators. *)
Context (yaml_safe_load : string -> completion pyval)
        (invalid_placeholder : string -> nat -> string).

Definition variable : list (string * string) :=
  [("host", API_HOST); ("token", TOKEN)].

(** [str(mapping[named])] *)
Definition mapping_getitem (named : string) : completion string :=
  match lookup_key named variable with
  | Some v => Ok v
  | None => Raise (KeyError named)
  end.

(** The identifier pattern of [Template], ASCII letters taken in both
    cases: a letter or an underscore, then letters, digits, underscores. *)
Definition is_id_start (c : ascii) : bool :=
  let n := nat_of_ascii c in
  (n =? 95)%nat || ((65 <=? n)%nat && (n <=? 90)%nat) || ((97 <=? n)%nat && (n <=? 122)%nat).

Definition is_id_char (c : ascii) : bool :=
  let n := nat_of_ascii c in
  is_id_start c || ((48 <=? n)%nat && (n <=? 57)%nat).

(** Where the scan of the template stands: in plain text, just after a
    delimiter found at [at], inside the name after a delimiter, just after
    the brace that follows a delimiter, or inside a braced name. *)
Inductive scan_state : Type :=
| Plain
| AfterDollar (at_ : nat)
| InNamed (named : string)
| AfterBrace (at_ : nat)
| InBraced (at_ : nat) (named : string).

Definition with_prefix (p : string) (c : completion string) : completion string :=
  match c with
  | Ok s => Ok (p +:+ s)
  | Raise e => Raise e
  end.

(** The substitution of the matches of the pattern of [Template] from left
    to right: two delimiters give one, a name or a braced name gives its
    value, anything else after a delimiter is an invalid placeholder. *)
Fixpoint scan (template : string) (st : scan_state) (pos : nat) (s : string)
  : completion string :=
  match s with
  | EmptyString =>
      match st with
      | Plain => Ok EmptyString
      | InNamed named => mapping_getitem named
      | AfterDollar at_ | AfterBrace at_ | InBraced at_ _ =>
          Raise (ValueError (invalid_placeholder template at_))
      end
  | String c s' =>
      match st with
      | Plain =>
          if Ascii.eqb c "$" then scan template (AfterDollar pos) (S pos) s'
          else with_prefix (String c EmptyString) (scan template Plain (S pos) s')
      | AfterDollar at_ =>
          if Ascii.eqb c "$" then with_prefix "$" (scan template Plain (S pos) s')
          else if is_id_start c then
            scan template (InNamed (String c EmptyString)) (S pos) s'
          else if Ascii.eqb c "{" then scan template (AfterBrace at_) (S pos) s'
          else Raise (ValueError (invalid_placeholder template at_))
      | InNamed named =>
          if is_id_char c then
            scan template (InNamed (named +:+ String c EmptyString)) (S pos) s'
          else
            match mapping_getitem named with
            | Ok v =>
                if Ascii.eqb c "$" then
                  with_prefix v (scan template (AfterDollar pos) (S pos) s')
                else
                  with_prefix (v +:+ String c EmptyString)
                    (scan template Plain (S pos) s')
            | Raise e => Raise e
            end
      | AfterBrace at_ =>
          if is_id_start c then
            scan template (InBraced at_ (String c EmptyString)) (S pos) s'
          else Raise (ValueError (invalid_placeholder template at_))
      | InBraced at_ named =>
          if is_id_char c then
            scan template (InBraced at_ (named +:+ String c EmptyString)) (S pos) s'
          else if Ascii.eqb c "}" then
            match mapping_getitem named with
            | Ok v => with_prefix v (scan template Plain (S pos) s')
            | Raise e => Raise e
            end
          else Raise (ValueError (invalid_placeholder template at_))
      end
  end.

(** [Template(template).substitute(variable)] *)
Definition substitute (template : string) : completion string :=
  scan template Plain 0 template.

(** [self.data] after [__init__] on a file holding [text]. *)
Definition YamlPack_init (text : string) : completion pyval :=
  match substitute text with
  | Ok re => yaml_safe_load re
  | Raise e => Raise e
  end.

(** *** test_api.py *)

(** How the body of a test function ends when no exception leaves it:
    at its last line, or at [pytest.skip()]. *)
Inductive test_end : Type := Finished | SkipCalled.

Definition failure_message (name request expected : pyval)
  (response : option response_value) : string :=
  "用例执行失败: " +:+ py_str name +:+ String newline
  ("请求信息: " +:+ py_str request +:+ String newline
  ("期望结果: " +:+ py_str expected +:+ String newline
  ("实际结果: " +:+ response_str response))).

(** [assert result['result'] == 'pass', (...)] *)
Definition assert_pass (case : pyval) (result : ResultDict) : M test_end :=
  if String.eqb (r_result result) "pass" then ret Finished
  else
    name <- lift (py_getitem case "name") ;;
    request <- lift (py_getitem case "request") ;;
    expected <- lift (py_getitem case "expected") ;;
    raise (AssertionError (failure_message name request expected (r_response result))).

Definition test_excel_api (case : pyval) : M test_end :=
  _ <- lift (py_getitem case "name") ;;
  run <- lift (py_getitem case "run") ;;
  run_lower <- lift (py_lower run) ;;
  if negb (String.eqb run_lower "yes") then
    _ <- lift (py_getitem case "name") ;;
    row <- lift (py_getitem case "row") ;;
    name <- lift (py_getitem case "name") ;;
    write_to_excel row (create_result name "skip" None) ;;;
    ret SkipCalled
  else
    result <- execute_test_case case ;;
    row <- lift (py_getitem case "row") ;;
    write_to_excel row result ;;;
    assert_pass case result.

Definition test_yaml_api (case : pyval) : M test_end :=
  _ <- lift (py_getitem case "name") ;;
  run <- lift (py_getitem case "run") ;;
  run_lower <- lift (py_lower run) ;;
  if negb (String.eqb run_lower "yes") then
    _ <- lift (py_getitem case "name") ;;
    ret SkipCalled
  else
    result <- execute_test_case case ;;
    assert_pass case result.

(** What pytest reports for one parametrized run of a test function, and
    the runs of all cases one after the other: an exception leaving one run
    fails that run only. *)
Inductive outcome : Type :=
| Passed
| Failed (e : exn)
| Skipped.

Definition run_test (t : M test_end) (w : World) : outcome * World :=
  match t w with
  | (Ok Finished, w') => (Passed, w')
  | (Ok SkipCalled, w') => (Skipped, w')
  | (Raise e, w') => (Failed e, w')
  end.

Fixpoint parametrize (test : pyval -> M test_end) (cases : list pyval) (w : World)
  : list outcome * World :=
  match cases with
  | [] => ([], w)
  | case :: rest =>
      let (o, w1) := run_test (test case) w in
      let (os, w2) := parametrize test rest w1 in
      (o :: os, w2)
  end.

(** *** Vocabulary of the properties *)

(** A computation that only reads the DataFrame: the state is returned as
    it was, and the completion is the one obtained from the DataFrame
    alone. *)
Definition frozen (w : World) : World := {| df := df w; book := ∅; sent := [] |}.

Definition reads_only_df {A} (m : M A) : Prop :=
  forall w, m w = (fst (m (frozen w)), w).

(** The record the loader builds for a row, given the header and payload
    objects it obtained for it. *)
Definition case_of_cells (row : Z) (cells : list cell) (headers data : pyval) : pyval :=
  let T := fun col => cell_text (nth col cells NaN) in
  PDict
    [("name", PStr (T 0%nat));
     ("run", PStr (T 1%nat));
     ("token", PStr (T 2%nat));
     ("type", PStr (T 6%nat));
     ("request", PDict [("url", PStr (API_HOST +:+ T 3%nat));
                        ("method", PStr (T 5%nat));
                        ("headers", headers);
                        ("data", data)]);
     ("expected", PDict [("status_code", PStr (T 8%nat));
                         ("msg", PStr (T 9%nat));
                         ("data", PStr (T 10%nat))]);
     ("result", PDict [("result", PStr (T 11%nat));
                       ("response", PStr (T 12%nat))]);
     ("row", PInt row)].

(** The object the loop obtains from a cell it hands to [eval], and the
    headers it puts in the request of a row: the evaluated header cell, with
    the token under 'Authorization' when the token cell is 'yes'. *)
Definition evaluated (cells : list cell) (col : nat) (dflt : pyval) : completion pyval :=
  let s := cell_text (nth col cells NaN) in
  if String.eqb s "" then Ok dflt else py_eval s.

Definition headers_of (cells : list cell) : completion pyval :=
  match evaluated cells 7 (PDict []) with
  | Ok h =>
      if String.eqb (cell_text (nth 2 cells NaN)) "yes"
      then py_setitem h "Authorization" (PStr TOKEN)
      else Ok h
  | Raise e => Raise e
  end.

(** The cell [_write_cell] stores: the new value, and the font of the
    style when the style names one, the font the cell had otherwise. *)
Definition cell_after (old : XCell) (val : string) (style : pyval) : XCell :=
  if py_truthy style && is_int_or_str style then
    match lookup_key (py_str style) STYLES with
    | Some (_, rgb) =>
        {| value := PStr val;
           font := {| font_name := None; font_size := None; bold := true;
                      italic := false; color := Some rgb |} |}
    | None => {| value := PStr val; font := font old |}
    end
  else {| value := PStr val; font := font old |}.

Definition blank_cell : XCell := {| value := PNone; font := DEFAULT_FONT |}.

(** The cell of the cached DataFrame at row position [i] and column [j]. *)
Definition df_at (d : DataFrame) (i j : nat) : option cell :=
  d !! i ≫= fun cells => cells !! j.


(** The text [send_request] compares [data_type] with for each keyword. *)
Definition kw_name (kw : payload_kw) : string :=
  match kw with
  | KwParams => "params"
  | KwData => "data"
  | KwJson => "json"
  | KwFiles => "file"
  end.

(** A computation that leaves the DataFrame and the workbook alone and adds
    at most [n] calls to the session trace. *)
Definition sends_at_most {A} (n : nat) (m : M A) : Prop :=
  forall w,
    df (snd (m w)) = df w /\ book (snd (m w)) = book w /\
    exists calls : list HttpCall,
      sent (snd (m w)) = (sent w ++ calls)%list /\ (length calls <= n)%nat.

(** The leaf an entry contributes, and entries that are mappings, whose
    keys are distinct. *)
Definition test_leaf (a : pyval) : option pyval :=
  match a with
  | PDict kvs => assoc_get "Test" kvs
  | _ => None
  end.

Definition is_mapping (a : pyval) : Prop :=
  match a with
  | PDict kvs => NoDup (map fst kvs)
  | _ => False
  end.


(** A template written as a list of segments: literal text, or the braced
    placeholder of a name. *)
Inductive segment : Type :=
| Lit (text : string)
| Var (named : string).

Fixpoint template_of (segs : list segment) : string :=
  match segs with
  | [] => EmptyString
  | Lit text :: segs' => text +:+ template_of segs'
  | Var named :: segs' => "${" +:+ named +:+ "}" +:+ template_of segs'
  end.

Fixpoint all_id_chars (s : string) : bool :=
  match s with
  | EmptyString => true
  | String c s' => is_id_char c && all_id_chars s'
  end.

Definition is_identifier (s : string) : bool :=
  match s with
  | EmptyString => false
  | String c s' => is_id_start c && all_id_chars s'
  end.

(** Literal text has no delimiter, and names are identifiers. *)
Definition well_formed (seg : segment) : bool :=
  match seg with
  | Lit text => negb (has_char "$" text)
  | Var named => is_identifier named
  end.

(** What follows a delimiter that starts no placeholder and no escape. *)
Definition starts_no_placeholder (rest : string) : bool :=
  match rest with
  | EmptyString => true
  | String c _ => negb (Ascii.eqb c "$") && negb (is_id_start c) && negb (Ascii.eqb c "{")
  end.

(** The text the parser receives for a list of segments: the literals as
    they are, each placeholder replaced by the value of its name; the
    KeyError of the first name that has no value otherwise. *)
Fixpoint resolve (segs : list segment) : completion string :=
  match segs with
  | [] => Ok EmptyString
  | Lit text :: segs' => with_prefix text (resolve segs')
  | Var named :: segs' =>
      match mapping_getitem named with
      | Ok v => with_prefix v (resolve segs')
      | Raise e => Raise e
      end
  end.

End Engine.

(** ** The validation rule in the words of the specification *)
Module Spec.

(** (a) expected status code equals actual status code, a decimal string
    standing for its integer. *)
Definition status_matches (expected : pyval) (actual : Z) : bool :=
  match expected with
  | PInt n => n =? actual
  | PStr s => String.eqb s (pretty actual)
  | _ => false
  end.

(** (b) expected message equals the [msg] key of the parsed body when the
    body is a mapping. *)
Definition message_matches (expected parsed_body : pyval) : bool :=
  match parsed_body with
  | PDict d =>
      match assoc_get "msg" d with
      | Some m => py_eq expected m
      | None => false
      end
  | _ => false
  end.

(** (c) the expected data fragment is a substring of the stringified body. *)
Definition fragment_matches (expected parsed_body : pyval) : bool :=
  match expected with
  | PStr s => contains s (py_str parsed_body)
  | _ => false
  end.

Definition verdict (expected_code expected_msg expected_data : pyval)
  (actual_code : Z) (parsed_body : pyval) : string :=
  if status_matches expected_code actual_code
     && message_matches expected_msg parsed_body
     && fragment_matches expected_data parsed_body
  then "pass" else "fail".

End Spec.

(** ** Concrete collaborators and inputs used by the examples *)
Module Fixture.

(** An evaluator that knows the two literals the sample sheet uses. *)
Definition eval_literal (s : string) : completion pyval :=
  if String.eqb s "{}" then Ok (PDict [])
  else if String.eqb s "None" then Ok PNone
  else Raise (SyntaxError "invalid syntax").

Definition user_body : pyval := PDict [("msg", PStr "ok"); ("id", PInt 1)].

(** A server answering every call with status 200 and [user_body]. *)
Definition answers_ok (call : HttpCall) : completion HttpResponse :=
  Ok {| status_code := 200; json := Ok user_body; elapsed := 1000 |}.

(** Sessions whose every call fails below HTTP. *)
Definition times_out (call : HttpCall) : completion HttpResponse :=
  Raise (Timeout "Read timed out. (read timeout=30)").

Definition refuses (call : HttpCall) : completion HttpResponse :=
  Raise (ConnectionError "[Errno 111] Connection refused").

Definition unresolved (call : HttpCall) : completion HttpResponse :=
  Raise (ConnectionError "[Errno -2] Name or service not known").

(** pandas 2: every column takes every value, converted when it has to
    be. *)
Definition converts (col : nat) (c : cell) : option exn := None.

(** pandas 3 on a DataFrame read as [d]: a column read from empty cells
    only is float64 and refuses a text. *)
Definition keeps_types (d : DataFrame) (col : nat) (c : cell) : option exn :=
  match c with
  | Val (PStr s) =>
      if forallb (fun cells => match nth col cells NaN with
                               | NaN => true
                               | Val _ => false
                               end) d
      then Some (TypeError ("Invalid value '" +:+ s +:+ "' for dtype 'float64'"))
      else None
  | _ => None
  end.

(** Row indexers that are lists of positions of the axis. *)
Fixpoint list_positions (n : nat) (items : list pyval) : option (list nat) :=
  match items with
  | [] => Some []
  | PInt z :: rest =>
      match iloc_pos n z, list_positions n rest with
      | Some r, Some rs => Some (r :: rs)
      | _, _ => None
      end
  | _ :: _ => None
  end.

Definition positions (n : nat) (row : pyval) (col : nat) (c : cell)
  : completion (list nat) :=
  match row with
  | PList items =>
      match list_positions n items with
      | Some rs => Ok rs
      | None => Raise (IndexError "positional indexers are out-of-bounds")
      end
  | _ => Raise (TypeError "Cannot index by location index with a non-integer key")
  end.

Definition cells_of (l : list (option pyval)) : list cell :=
  map (fun o => match o with Some v => Val v | None => NaN end) l.

(** The rows of a sheet from the top: the titles of the columns and two
    cases.  Taken as a DataFrame, it is the one read from a sheet that has a
    second line of titles under the names of the columns. *)
Definition sheet : DataFrame :=
  [ cells_of [Some (PStr "name"); Some (PStr "run"); Some (PStr "token");
              Some (PStr "url"); Some (PStr "data"); Some (PStr "method");
              Some (PStr "type"); Some (PStr "header"); Some (PStr "status");
              Some (PStr "msg"); Some (PStr "fragment"); None; None];
    cells_of [Some (PStr "get_user"); Some (PStr "yes"); Some (PStr "yes");
              Some (PStr "/api/user/1"); None; Some (PStr "GET");
              Some (PStr "params"); Some (PStr "{}"); Some (PInt 200);
              Some (PStr "ok"); None; None; None];
    cells_of [Some (PStr "list_users"); Some (PStr "No"); None;
              Some (PStr "/api/users"); None; Some (PStr "GET");
              Some (PStr "params"); None; Some (PInt 200);
              Some (PStr "ok"); None; None; None] ].

Definition world0 : World := {| df := sheet; book := ∅; sent := [] |}.

(** A case as a structured-text source yields it, the status an integer. *)
Definition get_user : pyval :=
  PDict [("name", PStr "get_user");
         ("run", PStr "yes");
         ("type", PStr "params");
         ("request", PDict [("url", PStr "http://h/api/user/1");
                            ("method", PStr "GET");
                            ("headers", PDict []);
                            ("data", PNone)]);
         ("expected", PDict [("status_code", PInt 200);
                             ("msg", PStr "ok");
                             ("data", PStr "'id': 1")])].

(** Row 2 of [sheet] once loaded from it as a DataFrame. *)
Definition list_users : pyval :=
  PDict [("name", PStr "list_users");
         ("run", PStr "No");
         ("token", PStr "");
         ("type", PStr "params");
         ("request", PDict [("url", PStr "http://h/api/users");
                            ("method", PStr "GET");
                            ("headers", PDict []);
                            ("data", PNone)]);
         ("expected", PDict [("status_code", PStr "200");
                             ("msg", PStr "ok");
                             ("data", PStr "")]);
         ("result", PDict [("result", PStr ""); ("response", PStr "")]);
         ("row", PInt 2)].

(** Row 1 of [sheet] once loaded from it as a DataFrame, with host
    [http://h] and token [secret]. *)
Definition get_user_row : pyval :=
  PDict [("name", PStr "get_user");
         ("run", PStr "yes");
         ("token", PStr "yes");
         ("type", PStr "params");
         ("request", PDict [("url", PStr "http://h/api/user/1");
                            ("method", PStr "GET");
                            ("headers", PDict [("Authorization", PStr "secret")]);
                            ("data", PNone)]);
         ("expected", PDict [("status_code", PStr "200");
                             ("msg", PStr "ok");
                             ("data", PStr "")]);
         ("result", PDict [("result", PStr ""); ("response", PStr "")]);
         ("row", PInt 1)].

Definition loaded : list pyval := [get_user_row; list_users].

End Fixture.

(** ** Further concrete inputs *)
Module Samples.

(** A case that has a name and nothing else. *)
Definition nameless_request : pyval := PDict [("name", PStr "broken")].


(** [Fixture.sheet] with another row 0. *)
Definition sheet_other_header : DataFrame :=
  match Fixture.sheet with
  | _ :: rest => Fixture.cells_of [Some (PStr "anything")] :: rest
  | [] => []
  end.

(** A DataFrame whose row 1 holds, for the headers, a cell that is no
    expression. *)
Definition sheet_bad_header : DataFrame :=
  [ Fixture.cells_of [Some (PStr "name")];
    Fixture.cells_of [Some (PStr "get_user"); Some (PStr "yes"); None;
                      Some (PStr "/api/user/1"); None; Some (PStr "GET");
                      Some (PStr "params"); Some (PStr "{"); Some (PInt 200);
                      Some (PStr "ok"); None; None; None] ].

(** The state after the first read of a file whose rows are those of
    [Fixture.sheet]: the titles name the columns, the two cases are the rows
    of the DataFrame. *)
Definition first_read : World :=
  {| df := read_excel Fixture.sheet; book := ∅; sent := [] |}.

(** The record of the second case when it is row 1 of the DataFrame. *)
Definition list_users_at_1 : pyval :=
  PDict [("name", PStr "list_users");
         ("run", PStr "No");
         ("token", PStr "");
         ("type", PStr "params");
         ("request", PDict [("url", PStr "http://h/api/users");
                            ("method", PStr "GET");
                            ("headers", PDict []);
                            ("data", PNone)]);
         ("expected", PDict [("status_code", PStr "200");
                             ("msg", PStr "ok");
                             ("data", PStr "")]);
         ("result", PDict [("result", PStr ""); ("response", PStr "")]);
         ("row", PInt 1)].



(** A parsed document with two leaves and an entry without leaf. *)
Definition document : pyval :=
  PDict [("Case",
          PList [PDict [("Test", Fixture.get_user)];
                 PDict [("Setup", PNone)];
                 PDict [("Test", Fixture.list_users)]])].

(** A parsed document one entry of which is a plain string. *)
Definition document_bad_entry : pyval :=
  PDict [("Case", PList [PDict [("Test", Fixture.get_user)]; PStr "Test"])].

(** A parser and a message, standing for the collaborators. *)
Definition parse_as_text (s : string) : completion pyval := Ok (PStr s).

Definition message_at (template : string) (at_ : nat) : string :=
  "Invalid placeholder in string: offset " +:+ pretty at_.

End Samples.

(** ** Properties *)

(** *** The state and exception monad *)

Lemma bind_ok {A B} (m : M A) (f : A -> M B) w a w1 :
  m w = (Ok a, w1) -> bind m f w = f a w1.
Proof. intros H. unfold bind. by rewrite H. Qed.

Lemma bind_raise {A B} (m : M A) (f : A -> M B) w e w1 :
  m w = (Raise e, w1) -> bind m f w = (Raise e, w1).
Proof. intros H. unfold bind. by rewrite H. Qed.

Lemma bind_Ok_inv {A B} (m : M A) (f : A -> M B) w b w' :
  bind m f w = (Ok b, w') ->
  exists a w1, m w = (Ok a, w1) /\ f a w1 = (Ok b, w').
Proof.
  unfold bind. destruct (m w) as [[a|e] w1]; [eauto | discriminate].
Qed.

Lemma lift_run {A} (c : completion A) w : lift c w = (c, w).
Proof. reflexivity. Qed.

Lemma try_except_ok {A} (m : M A) h w a w1 :
  m w = (Ok a, w1) -> try_except m h w = (Ok a, w1).
Proof. intros H. unfold try_except. by rewrite H. Qed.

Lemma try_except_raise {A} (m : M A) h w e w1 :
  m w = (Raise e, w1) -> try_except m h w = h e w1.
Proof. intros H. unfold try_except. by rewrite H. Qed.

(** Runs the first [bind] of the goal on both completions of its left
    computation. *)
Ltac run_bind :=
  match goal with
  | |- context [bind ?m ?f ?w] =>
      let E := fresh "E" in
      destruct (m w) as [[?|?] ?] eqn:E;
      [ rewrite (bind_ok m f w _ _ E) | rewrite (bind_raise m f w _ _ E) ]
  end.

Section Properties.

Context (py_eval : string -> completion pyval)
        (API_HOST TOKEN : string)
        (session_request : HttpCall -> completion HttpResponse)
        (seconds_repr : Z -> string)
        (column_rejects : nat -> cell -> option exn)
        (listlike_rows : nat -> pyval -> nat -> cell -> completion (list nat)).

(** *** Execution of one case *)

(** Indexing the stringified body with ['msg'] raises, so the [try] block
    never reaches its last line. *)
Lemma execute_body_raises case w :
  exists e w', execute_body session_request case w = (Raise e, w').
Proof.
  unfold execute_body.
  repeat (run_bind; [| by eauto]).
  all: try (unfold lift in *; simpl in *; discriminate).
Qed.


Lemma execute_test_case_never_pass case w r w' :
  execute_test_case session_request case w = (Ok r, w') -> r_result r = "fail".
Proof.
  unfold execute_test_case, try_except.
  destruct (execute_body_raises case w) as (e & w1 & ->).
  intros H. apply bind_Ok_inv in H as (name & w2 & _ & H).
  by inversion H.
Qed.


(** *** Reading the DataFrame *)

Lemma reads_ret {A} (a : A) : reads_only_df (ret a).
Proof. by intros w. Qed.

Lemma reads_lift {A} (c : completion A) : reads_only_df (lift c).
Proof. by intros w. Qed.

Lemma reads_get_df : reads_only_df get_df.
Proof. by intros w. Qed.

Lemma reads_bind {A B} (m : M A) (f : A -> M B) :
  reads_only_df m -> (forall a, reads_only_df (f a)) -> reads_only_df (bind m f).
Proof.
  intros Hm Hf w. unfold bind.
  rewrite (Hm w), (Hm (frozen w)). change (frozen (frozen w)) with (frozen w).
  destruct (fst (m (frozen w))) as [a|e]; simpl; [| done].
  by rewrite (Hf a w).
Qed.

Lemma reads_if {A} (b : bool) (m1 m2 : M A) :
  reads_only_df m1 -> reads_only_df m2 -> reads_only_df (if b then m1 else m2).
Proof. by destruct b. Qed.

Lemma reads_mapM {A B} (f : A -> M B) l :
  (forall a, reads_only_df (f a)) -> reads_only_df (mapM f l).
Proof.
  intros Hf. induction l as [|a l IH]; simpl; [apply reads_ret |].
  apply reads_bind; [done | intros b].
  apply reads_bind; [done | intros bs]. apply reads_ret.
Qed.

Lemma reads_same_state {A} (m : M A) w c w' :
  reads_only_df m -> m w = (c, w') -> w' = w.
Proof. intros Hm H. rewrite (Hm w) in H. by inversion H. Qed.

Lemma reads_same_df {A} (m : M A) w1 w2 :
  reads_only_df m -> df w1 = df w2 -> fst (m w1) = fst (m w2).
Proof.
  intros Hm Hdf. rewrite (Hm w1), (Hm w2). simpl.
  unfold frozen. by rewrite Hdf.
Qed.

Ltac reads := repeat first
  [ apply reads_ret | apply reads_lift | apply reads_get_df
  | apply reads_if | apply reads_mapM; intros ? | apply reads_bind; [| intros ?] ].

Lemma reads_get_cell_value row col_name : reads_only_df (_get_cell_value row col_name).
Proof. unfold _get_cell_value. reads. Qed.

Lemma reads_eval_cell row col_name dflt :
  reads_only_df (eval_cell py_eval row col_name dflt).
Proof.
  unfold eval_cell. reads; try apply reads_get_cell_value.
Qed.

Lemma reads_load_row row : reads_only_df (load_row py_eval API_HOST TOKEN row).
Proof.
  unfold load_row.
  reads; try apply reads_get_cell_value; try apply reads_eval_cell.
Qed.

Lemma reads_load_test_cases : reads_only_df (load_test_cases py_eval API_HOST TOKEN).
Proof.
  unfold load_test_cases. reads.
Qed.


Lemma iloc_pos_nat n i : (i < n)%nat -> iloc_pos n (Z.of_nat i) = Some i.
Proof.
  intros Hi. unfold iloc_pos.
  rewrite (proj2 (Z.leb_le 0 _)) by lia.
  rewrite (proj2 (Z.ltb_lt _ _)) by lia.
  simpl. by rewrite Nat2Z.id.
Qed.

Lemma iloc_pos_nonneg n z : 0 <= z < Z.of_nat n -> iloc_pos n z = Some (Z.to_nat z).
Proof.
  intros Hz. unfold iloc_pos.
  rewrite (proj2 (Z.leb_le 0 _)) by lia.
  by rewrite (proj2 (Z.ltb_lt _ _)) by lia.
Qed.

Lemma iloc_get_at (d : DataFrame) i cells col :
  d !! i = Some cells -> (col < length cells)%nat ->
  iloc_get d (Z.of_nat i) col = Ok (nth col cells NaN).
Proof.
  intros Hi Hc. unfold iloc_get.
  rewrite iloc_pos_nat by (by eapply lookup_lt_Some). rewrite Hi.
  destruct (cells !! col) as [c|] eqn:E.
  - by rewrite (nth_lookup_Some _ _ _ _ E).
  - apply lookup_ge_None in E. lia.
Qed.

Lemma get_cell_value_at w i cells col_name col :
  df w !! i = Some cells ->
  COLUMNS_getitem col_name = Ok col ->
  (col < length cells)%nat ->
  _get_cell_value (Z.of_nat i) col_name w = (Ok (cell_text (nth col cells NaN)), w).
Proof.
  intros Hi Hcol Hc. unfold _get_cell_value.
  rewrite (bind_ok _ _ _ col w) by (by rewrite lift_run, Hcol).
  rewrite (bind_ok _ _ _ (df w) w) by done.
  rewrite (bind_ok _ _ _ (nth col cells NaN) w); [done |].
  by rewrite lift_run, (iloc_get_at _ _ _ _ Hi Hc).
Qed.

Lemma eval_cell_run w i cells col_name col dflt :
  df w !! i = Some cells ->
  COLUMNS_getitem col_name = Ok col ->
  (col < length cells)%nat ->
  eval_cell py_eval (Z.of_nat i) col_name dflt w = (evaluated py_eval cells col dflt, w).
Proof.
  intros Hi Hcol Hc. unfold eval_cell, evaluated.
  rewrite (bind_ok _ _ _ _ _ (get_cell_value_at _ _ _ _ _ Hi Hcol Hc)).
  destruct (String.eqb (cell_text (nth col cells NaN)) ""); cbn [negb]; [done |].
  by rewrite (bind_ok _ _ _ _ _ (get_cell_value_at _ _ _ _ _ Hi Hcol Hc)).
Qed.

Lemma evaluates_evaluated s cells col dflt need :
  cell_text (nth col cells NaN) = s ->
  evaluates py_eval s need = true ->
  exists v,
    evaluated py_eval cells col dflt = Ok v /\
    (need = true -> (exists d, dflt = PDict d) -> exists d, v = PDict d).
Proof.
  intros <- Hev. unfold evaluates in Hev. unfold evaluated.
  destruct (String.eqb (cell_text (nth col cells NaN)) ""); simpl in Hev.
  - exists dflt. split; [done | auto].
  - destruct (py_eval (cell_text (nth col cells NaN))) as [v|e]; [| done].
    exists v. split; [done |]. intros -> _.
    destruct v; try done. eauto.
Qed.

(** A row that can be loaded gives its record: the stripped texts of its
    cells, the headers and the payload obtained from the two evaluated
    cells, and its own index. *)
Lemma load_row_ok w i cells :
  df w !! i = Some cells ->
  row_loadable py_eval cells = true ->
  exists headers payload,
    headers_of py_eval TOKEN cells = Ok headers /\
    evaluated py_eval cells 4 PNone = Ok payload /\
    load_row py_eval API_HOST TOKEN (Z.of_nat i) w
    = (Ok (case_of_cells API_HOST (Z.of_nat i) cells headers payload), w).
Proof.
  intros Hi Hok. unfold row_loadable in Hok.
  apply andb_prop in Hok as [Hok Hd]. apply andb_prop in Hok as [Hlen Hh].
  apply Nat.leb_le in Hlen.
  assert (Hcell : forall col_name col,
             COLUMNS_getitem col_name = Ok col -> (col < 13)%nat ->
             _get_cell_value (Z.of_nat i) col_name w
             = (Ok (cell_text (nth col cells NaN)), w)).
  { intros. eapply get_cell_value_at; eauto. lia. }
  destruct (evaluates_evaluated _ cells 7%nat (PDict []) _ eq_refl Hh) as (h0 & Eh & Hdict).
  destruct (evaluates_evaluated _ cells 4%nat PNone _ eq_refl Hd) as (dat & Ed & _).
  pose proof (eval_cell_run w i cells "header" 7%nat (PDict []) Hi eq_refl ltac:(lia)) as Rh.
  pose proof (eval_cell_run w i cells "data" 4%nat PNone Hi eq_refl ltac:(lia)) as Rd.
  rewrite Eh in Rh. rewrite Ed in Rd.
  unfold load_row, headers_of. rewrite Eh.
  rewrite (bind_ok _ _ _ _ _ Rh).
  rewrite (bind_ok _ _ _ _ _ (Hcell "token" 2%nat eq_refl ltac:(lia))).
  destruct (String.eqb (cell_text (nth 2 cells NaN)) "yes") eqn:Etok.
  - destruct (Hdict eq_refl) as [d ->]; [by eexists |].
    rewrite (bind_ok _ _ _ (PDict (assoc_set "Authorization" (PStr TOKEN) d)) w) by done.
    repeat (erewrite bind_ok; [| first [exact Rd | apply Hcell; [reflexivity | lia]]]).
    by eexists _, _.
  - rewrite (bind_ok _ _ _ h0 w) by done.
    repeat (erewrite bind_ok; [| first [exact Rd | apply Hcell; [reflexivity | lia]]]).
    by eexists _, _.
Qed.


Lemma mapM_same_state {A B} (f : A -> M B) l w :
  (forall a, a ∈ l -> exists b, f a w = (Ok b, w)) ->
  exists bs, mapM f l w = (Ok bs, w) /\ Forall2 (fun a b => f a w = (Ok b, w)) l bs.
Proof.
  induction l as [|a l IH]; intros Hf; simpl.
  - exists []. by split.
  - destruct (Hf a) as [b Hb]; [by left |].
    destruct IH as (bs & Hbs & Hall); [intros ? ?; apply Hf; by right |].
    exists (b :: bs). split; [| by constructor].
    rewrite (bind_ok _ _ _ _ _ Hb), (bind_ok _ _ _ _ _ Hbs). done.
Qed.

(** C3, as the code has it: pandas takes the first row of the sheet for the
    names of the columns, so the [data] rows after it are the rows of the
    DataFrame, and the loop starts at row 1.  When the rows it visits can be
    loaded, [load_test_cases] returns one record less than there are data
    rows: none for the first data row, and at position i-1 the record of
    data row i, in the order of the sheet, with the stripped texts of that
    row, the headers and payload its two cells evaluate to, and i as its
    row.  The state is left as it was, and every load from a DataFrame read
    from the same rows returns the same records. *)
Theorem load_test_cases_after_first_row header data w :
  df w = read_excel (header :: data) ->
  (forall i cells, (1 <= i)%nat -> data !! i = Some cells ->
                   row_loadable py_eval cells = true) ->
  exists cases,
    load_test_cases py_eval API_HOST TOKEN w = (Ok cases, w) /\
    length cases = (length data - 1)%nat /\
    (forall i cells, (1 <= i)%nat -> data !! i = Some cells ->
       exists headers payload,
         headers_of py_eval TOKEN cells = Ok headers /\
         evaluated py_eval cells 4 PNone = Ok payload /\
         cases !! (i - 1)%nat
         = Some (case_of_cells API_HOST (Z.of_nat i) cells headers payload)) /\
    (forall w2, df w2 = read_excel (header :: data) ->
       load_test_cases py_eval API_HOST TOKEN w2 = (Ok cases, w2)).
Proof.
  intros Hread Hrows. cbn [read_excel tail] in *.
  set (rows := map Z.of_nat (seq 1 (length data - 1))).
  assert (Hrow : forall i, (1 <= i)%nat -> (i < length data)%nat ->
                           rows !! (i - 1)%nat = Some (Z.of_nat i)).
  { intros i H1 Hlt. unfold rows. rewrite list_lookup_fmap, lookup_seq_lt by lia.
    simpl. do 2 f_equal. lia. }
  assert (Hall : forall w0, df w0 = data ->
            exists cases,
              mapM (load_row py_eval API_HOST TOKEN) rows w0 = (Ok cases, w0) /\
              Forall2 (fun a b => load_row py_eval API_HOST TOKEN a w0 = (Ok b, w0))
                rows cases).
  { intros w0 Hw0. apply mapM_same_state. intros a Ha. unfold rows in Ha.
    apply list_elem_of_fmap in Ha as (i & -> & Hi).
    apply elem_of_seq in Hi.
    destruct (lookup_lt_is_Some_2 data i) as [cells Hcells]; [lia |].
    destruct (load_row_ok w0 i cells) as (h & d & _ & _ & Hok);
      [by rewrite Hw0 | apply (Hrows i); [lia | done] |].
    eauto. }
  assert (Hload : forall w0 cases, df w0 = data ->
            mapM (load_row py_eval API_HOST TOKEN) rows w0 = (Ok cases, w0) ->
            load_test_cases py_eval API_HOST TOKEN w0 = (Ok cases, w0)).
  { intros w0 cases Hw0 Hrun. unfold load_test_cases.
    rewrite (bind_ok _ _ _ (df w0) w0) by done. by rewrite Hw0. }
  destruct (Hall w Hread) as (cases & Hrun & HF).
  assert (Hcase : forall i cells, (1 <= i)%nat -> data !! i = Some cells ->
             exists headers payload,
               headers_of py_eval TOKEN cells = Ok headers /\
               evaluated py_eval cells 4 PNone = Ok payload /\
               cases !! (i - 1)%nat
               = Some (case_of_cells API_HOST (Z.of_nat i) cells headers payload)).
  { intros i cells H1 Hcells.
    pose proof (lookup_lt_Some _ _ _ Hcells) as Hlt.
    destruct (Forall2_lookup_l _ _ _ _ _ HF (Hrow i H1 Hlt)) as (case & Hcase & Hrun_i).
    destruct (load_row_ok w i cells) as (h & d & Hh & Hd & Hok);
      [by rewrite Hread | by apply (Hrows i) |].
    exists h, d. rewrite Hcase. rewrite Hok in Hrun_i. by inversion Hrun_i. }
  exists cases. split; [by apply Hload |]. split; [| split; [done |]].
  - rewrite <- (Forall2_length _ _ _ HF). unfold rows.
    by rewrite length_map, length_seq.
  - intros w2 Hw2. apply Hload; [done |].
    destruct (Hall w2 Hw2) as (cases2 & Hrun2 & HF2). rewrite Hrun2. do 2 f_equal.
    apply list_eq. intros k.
    destruct (decide (k < length rows)%nat) as [Hk | Hk].
    + destruct (lookup_lt_is_Some_2 rows k Hk) as [a Ha].
      destruct (Forall2_lookup_l _ _ _ _ _ HF Ha) as (c1 & -> & H1).
      destruct (Forall2_lookup_l _ _ _ _ _ HF2 Ha) as (c2 & -> & H2).
      unfold rows in Ha. rewrite list_lookup_fmap in Ha.
      destruct (seq 1 (length data - 1) !! k) as [i|] eqn:Ei; [| done].
      injection Ha as <-. apply lookup_seq in Ei as [-> Hi].
      destruct (lookup_lt_is_Some_2 data (1 + k)) as [cells Hcells]; [lia |].
      destruct (load_row_ok w (1 + k) cells) as (h & d & Hh & Hd & Hok);
        [by rewrite Hread | apply (Hrows (1 + k)%nat); [lia | done] |].
      destruct (load_row_ok w2 (1 + k) cells) as (h' & d' & Hh' & Hd' & Hok');
        [by rewrite Hw2 | apply (Hrows (1 + k)%nat); [lia | done] |].
      rewrite Hok in H1. rewrite Hok' in H2. congruence.
    + rewrite (lookup_ge_None_2 cases2), (lookup_ge_None_2 cases); [done | |].
      * rewrite <- (Forall2_length _ _ _ HF). lia.
      * rewrite <- (Forall2_length _ _ _ HF2). lia.
Qed.


Lemma assoc_get_set_eq k x d : assoc_get k (assoc_set k x d) = Some x.
Proof.
  induction d as [|[k' y] d IH]; simpl.
  - by rewrite String.eqb_refl.
  - destruct (String.eqb k k') eqn:E; simpl; rewrite E; [done | exact IH].
Qed.

Lemma mapM_Ok_elem {A B} (f : A -> M B) l w bs w' b :
  mapM f l w = (Ok bs, w') -> b ∈ bs ->
  exists a w1 w2, a ∈ l /\ f a w1 = (Ok b, w2).
Proof.
  revert w bs. induction l as [|a l IH]; intros w bs H Hb; simpl in H.
  - inversion H; subst. by apply elem_of_nil in Hb.
  - apply bind_Ok_inv in H as (b0 & w1 & Hb0 & H).
    apply bind_Ok_inv in H as (bs0 & w2 & Hbs0 & H).
    inversion H; subst. apply elem_of_cons in Hb as [-> | Hb].
    + exists a, w, w1. split; [by left | done].
    + destruct (IH _ _ Hbs0 Hb) as (a' & wa & wb & Ha' & Hrun).
      exists a', wa, wb. split; [by right | done].
Qed.

(** States reached by computations that only read are the state they
    started from. *)
Ltac same_states :=
  repeat match goal with
    | H : ?m ?w = (_, ?w') |- _ =>
        is_var w';
        tryif constr_eq w w' then fail
        else (assert (w' = w)
               by (eapply (reads_same_state m);
                   [ first [ apply reads_get_cell_value | apply reads_eval_cell
                           | apply reads_if; apply reads_lift || apply reads_ret
                           | apply reads_ret | apply reads_lift ]
                   | exact H ]);
              subst w')
    end.

(** The shape of a record the loop has built: strings everywhere but in
    the header and payload objects, and the token stored in the headers
    when the token flag is 'yes'. *)
Lemma load_row_shape row w case w' :
  load_row py_eval API_HOST TOKEN row w = (Ok case, w') ->
  exists name run token type url method headers data status_code msg expect_data
         result response,
    case = PDict
             [("name", PStr name); ("run", PStr run); ("token", PStr token);
              ("type", PStr type);
              ("request", PDict [("url", PStr (API_HOST +:+ url));
                                 ("method", PStr method);
                                 ("headers", headers);
                                 ("data", data)]);
              ("expected", PDict [("status_code", PStr status_code);
                                  ("msg", PStr msg);
                                  ("data", PStr expect_data)]);
              ("result", PDict [("result", PStr result);
                                ("response", PStr response)]);
              ("row", PInt row)] /\
    (token = "yes" -> py_getitem headers "Authorization" = Ok (PStr TOKEN)).
Proof.
  intros H. unfold load_row in H.
  apply bind_Ok_inv in H as (headers0 & w1 & H0 & H).
  apply bind_Ok_inv in H as (token0 & w2 & Ht0 & H).
  apply bind_Ok_inv in H as (headers & w3 & Hh & H).
  apply bind_Ok_inv in H as (name & w4 & Hname & H).
  apply bind_Ok_inv in H as (run & w5 & Hrun & H).
  apply bind_Ok_inv in H as (token & w6 & Ht & H).
  repeat (apply bind_Ok_inv in H as (? & ? & ? & H)).
  same_states.
  inversion H; subst case; clear H.
  do 13 eexists. split; [reflexivity |].
  intros ->. assert (token0 = "yes") as -> by congruence.
  simpl in Hh. rewrite lift_run in Hh.
  destruct headers0; try discriminate. simpl in Hh. inversion Hh; subst headers.
  simpl. by rewrite assoc_get_set_eq.
Qed.

Lemma loaded_case_shape w cases w' case :
  load_test_cases py_eval API_HOST TOKEN w = (Ok cases, w') ->
  case ∈ cases ->
  exists row wa wb, load_row py_eval API_HOST TOKEN row wa = (Ok case, wb).
Proof.
  intros Hload Hin. unfold load_test_cases in Hload.
  apply bind_Ok_inv in Hload as (d & w1 & _ & Hload).
  destruct (mapM_Ok_elem _ _ _ _ _ _ Hload Hin) as (row & wa & wb & _ & Hrow).
  eauto.
Qed.

(** C8: every case returned by [load_test_cases] whose token flag is 'yes'
    has, in the headers of its request, the key 'Authorization' bound to
    the configured token; the load itself sends nothing. *)
Theorem authorization_injected_at_load w cases w' :
  load_test_cases py_eval API_HOST TOKEN w = (Ok cases, w') ->
  sent w' = sent w /\
  forall case,
    case ∈ cases ->
    py_getitem case "token" = Ok (PStr "yes") ->
    exists request headers,
      py_getitem case "request" = Ok request /\
      py_getitem request "headers" = Ok headers /\
      py_getitem headers "Authorization" = Ok (PStr TOKEN).
Proof.
  intros Hload. split.
  - by rewrite (reads_same_state _ _ _ _ reads_load_test_cases Hload).
  - intros case Hin Htok.
    destruct (loaded_case_shape _ _ _ _ Hload Hin) as (row & wa & wb & Hrow).
    apply load_row_shape in Hrow
      as (name & run & token & type & url & method & headers & data & sc & msg & ed
          & res & resp & -> & Hauth).
    simpl in Htok. injection Htok as ->.
    eexists _, _. split; [reflexivity |]. split; [reflexivity |]. by apply Hauth.
Qed.


(** C4: in every case returned by [load_test_cases] the expected status
    code is a string, and the status comparison of [execute_test_case], a
    string against the integer code of a response, is false whatever the
    code is. *)
Theorem spreadsheet_status_never_matches w cases w' :
  load_test_cases py_eval API_HOST TOKEN w = (Ok cases, w') ->
  forall case,
    case ∈ cases ->
    exists expected s,
      py_getitem case "expected" = Ok expected /\
      py_getitem expected "status_code" = Ok (PStr s) /\
      forall actual_code, py_eq (PStr s) (PInt actual_code) = false.
Proof.
  intros Hload case Hin.
  destruct (loaded_case_shape _ _ _ _ Hload Hin) as (row & wa & wb & Hrow).
  apply load_row_shape in Hrow
    as (name & run & token & type & url & method & headers & data & sc & msg & ed
        & res & resp & -> & _).
  eexists _, sc. by repeat split.
Qed.

(** *** Writing back *)

Lemma value_cell_after old val style : value (cell_after old val style) = PStr val.
Proof.
  unfold cell_after. destruct (py_truthy style && is_int_or_str style); [| done].
  by destruct (lookup_key (py_str style) STYLES) as [[? ?]|].
Qed.

Lemma iloc_set_Ok_inv (d : DataFrame) z col c d' :
  iloc_set column_rejects listlike_rows d (PInt z) col c = Ok d' ->
  exists r cells,
    iloc_pos (length d) z = Some r /\ d !! r = Some cells /\
    (col < length cells)%nat /\ column_rejects col c = None /\
    d' = <[r := <[col := c]> cells]> d.
Proof.
  unfold iloc_set. intros H.
  destruct (iloc_pos (length d) z) as [r|]; [| done].
  destruct (d !! r) as [cells|] eqn:Hr; [| done].
  destruct (col <? length cells)%nat eqn:Hc; [| done].
  destruct (column_rejects col c) eqn:Hacc; [done |].
  apply Nat.ltb_lt in Hc. inversion H. by exists r, cells.
Qed.

Lemma iloc_set_at (d : DataFrame) z col c r cells :
  iloc_pos (length d) z = Some r -> d !! r = Some cells -> (col < length cells)%nat ->
  column_rejects col c = None ->
  iloc_set column_rejects listlike_rows d (PInt z) col c
  = Ok (<[r := <[col := c]> cells]> d).
Proof.
  intros Hz Hr Hc Hacc. unfold iloc_set. rewrite Hz, Hr, Hacc.
  by rewrite (proj2 (Nat.ltb_lt _ _) Hc).
Qed.

(** A text the column refuses is not stored: the write raises before the
    DataFrame or the workbook is touched. *)
Lemma iloc_set_rejected (d : DataFrame) z col c r cells e :
  iloc_pos (length d) z = Some r -> d !! r = Some cells -> (col < length cells)%nat ->
  column_rejects col c = Some e ->
  iloc_set column_rejects listlike_rows d (PInt z) col c = Raise e.
Proof.
  intros Hz Hr Hc Hrej. unfold iloc_set. rewrite Hz, Hr, Hrej.
  by rewrite (proj2 (Nat.ltb_lt _ _) Hc).
Qed.

Lemma df_at_insert_ne (d : DataFrame) r cells col c i j :
  d !! r = Some cells -> (i <> r \/ j <> col) ->
  df_at (<[r := <[col := c]> cells]> d) i j = df_at d i j.
Proof.
  intros Hr Hne. unfold df_at.
  destruct (decide (i = r)) as [-> | Hi].
  - rewrite list_lookup_insert_eq by (by eapply lookup_lt_Some). rewrite Hr. simpl.
    destruct Hne as [? | Hj]; [done |]. by rewrite list_lookup_insert_ne.
  - by rewrite list_lookup_insert_ne.
Qed.

(** [_write_cell] step by step. *)
Lemma write_cell_run row col_name val style w :
  _write_cell column_rejects listlike_rows row col_name val style w =
  match COLUMNS_getitem col_name with
  | Raise e => (Raise e, w)
  | Ok col =>
      match iloc_set column_rejects listlike_rows (df w) row col (Val (PStr val)) with
      | Raise e => (Raise e, w)
      | Ok d' =>
          match row_plus_2 row with
          | Raise e => (Raise e, {| df := d'; book := book w; sent := sent w |})
          | Ok r =>
              match sheet_cell (book w) r (Z.of_nat col + 1) with
              | Raise e => (Raise e, {| df := d'; book := book w; sent := sent w |})
              | Ok c =>
                  (Ok tt,
                   {| df := d';
                      book := <[(r, Z.of_nat col + 1) := cell_after c val style]> (book w);
                      sent := sent w |})
              end
          end
      end
  end.
Proof.
  unfold _write_cell, bind, lift, get_df, put_df, load_workbook, save.
  destruct (COLUMNS_getitem col_name) as [col|]; [| done].
  destruct (iloc_set column_rejects listlike_rows (df w) row col (Val (PStr val)))
    as [d'|]; [| done].
  cbn [df book sent].
  destruct (row_plus_2 row) as [r|]; [| done].
  destruct (sheet_cell (book w) r (Z.of_nat col + 1)) as [c|]; [| done].
  reflexivity.
Qed.

Lemma sheet_cell_at (worksheet : gmap (Z * Z) XCell) row column :
  1 <= row -> 1 <= column ->
  sheet_cell worksheet row column = Ok (default blank_cell (worksheet !! (row, column))).
Proof.
  intros Hr Hc. unfold sheet_cell.
  rewrite (proj2 (Z.ltb_ge _ _)) by lia.
  by rewrite (proj2 (Z.ltb_ge _ _)) by lia.
Qed.

Lemma write_cell_ok z col_name col val style w r cells :
  COLUMNS_getitem col_name = Ok col ->
  iloc_pos (length (df w)) z = Some r ->
  df w !! r = Some cells ->
  (col < length cells)%nat ->
  column_rejects col (Val (PStr val)) = None ->
  -1 <= z ->
  _write_cell column_rejects listlike_rows (PInt z) col_name val style w
  = (Ok tt,
     {| df := <[r := <[col := Val (PStr val)]> cells]> (df w);
        book := <[(z + 2, Z.of_nat col + 1) :=
                    cell_after (default blank_cell (book w !! (z + 2, Z.of_nat col + 1)))
                               val style]> (book w);
        sent := sent w |}).
Proof.
  intros Hcol Hz Hr Hc Hacc Hneg.
  rewrite write_cell_run, Hcol, (iloc_set_at _ _ _ _ _ _ Hz Hr Hc Hacc).
  cbn [row_plus_2]. by rewrite sheet_cell_at by lia.
Qed.

(** When the column refuses the text, the write raises and nothing has
    changed. *)
Lemma write_cell_rejected z col_name col val style w r cells e :
  COLUMNS_getitem col_name = Ok col ->
  iloc_pos (length (df w)) z = Some r ->
  df w !! r = Some cells ->
  (col < length cells)%nat ->
  column_rejects col (Val (PStr val)) = Some e ->
  _write_cell column_rejects listlike_rows (PInt z) col_name val style w = (Raise e, w).
Proof.
  intros Hcol Hz Hr Hc Hrej.
  by rewrite write_cell_run, Hcol, (iloc_set_rejected _ _ _ _ _ _ _ Hz Hr Hc Hrej).
Qed.

(** C9: a write for row [z] and a column of the schema changes, in the
    workbook, at most the cell at row [z + 2] and column [col + 1]: every
    other cell keeps its value and its font; a write that completes leaves
    the value there; in the cached DataFrame at most the addressed cell
    changes; and nothing is sent. *)
Theorem write_cell_frame z col_name col val style w :
  COLUMNS_getitem col_name = Ok col ->
  let run := _write_cell column_rejects listlike_rows (PInt z) col_name val style w in
  (forall p, p <> (z + 2, Z.of_nat col + 1) -> book (snd run) !! p = book w !! p) /\
  (fst run = Ok tt ->
   exists c, book (snd run) !! (z + 2, Z.of_nat col + 1) = Some c /\ value c = PStr val) /\
  (forall i j, (iloc_pos (length (df w)) z <> Some i \/ j <> col) ->
               df_at (df (snd run)) i j = df_at (df w) i j) /\
  sent (snd run) = sent w.
Proof.
  intros Hcol run. subst run. rewrite write_cell_run, Hcol.
  destruct (iloc_set column_rejects listlike_rows (df w) (PInt z) col (Val (PStr val)))
    as [d'|e] eqn:Eset; [| by simpl].
  apply iloc_set_Ok_inv in Eset as (r & cells & Hz & Hr & Hc & Hacc & ->).
  set (d' := <[r := <[col := Val (PStr val)]> cells]> (df w)).
  assert (Hdf : forall i j, (iloc_pos (length (df w)) z <> Some i \/ j <> col) ->
                 df_at d' i j = df_at (df w) i j).
  { intros i j Hne. apply df_at_insert_ne; [done |].
    destruct Hne as [Hne | Hne]; [left; congruence | by right]. }
  cbn [row_plus_2].
  destruct (sheet_cell (book w) (z + 2) (Z.of_nat col + 1)) as [c|e] eqn:Ec.
  - cbn [fst snd book df sent].
    repeat split; [| | done].
    + intros p Hp. by rewrite lookup_insert_ne.
    + intros _. eexists. rewrite lookup_insert_eq. split; [done |].
      apply value_cell_after.
  - cbn [fst snd book df sent]. by repeat split.
Qed.



(** The state [write_to_excel] leaves for a row of the DataFrame when both
    columns take their text. *)
Lemma write_to_excel_state z result w r cells :
  iloc_pos (length (df w)) z = Some r ->
  df w !! r = Some cells ->
  (13 <= length cells)%nat ->
  -1 <= z ->
  column_rejects 12%nat (Val (PStr (response_str seconds_repr (r_response result)))) = None ->
  column_rejects 11%nat (Val (PStr (r_result result))) = None ->
  write_to_excel seconds_repr column_rejects listlike_rows (PInt z) result w
  = (Ok tt,
     {| df := <[r := <[11%nat := Val (PStr (r_result result))]>
                       (<[12%nat := Val (PStr (response_str seconds_repr
                                                 (r_response result)))]> cells)]>
                (df w);
        book :=
          <[(z + 2, 12) :=
              cell_after (default blank_cell (book w !! (z + 2, 12)))
                         (r_result result) (PStr (r_result result))]>
            (<[(z + 2, 13) :=
                 cell_after (default blank_cell (book w !! (z + 2, 13)))
                            (response_str seconds_repr (r_response result)) PNone]>
               (book w));
        sent := sent w |}).
Proof.
  intros Hz Hr Hlen Hneg Hacc12 Hacc11. unfold write_to_excel.
  erewrite try_except_ok; [reflexivity |].
  erewrite bind_ok;
    [| exact (write_cell_ok z "response" 12%nat _ PNone w r cells eq_refl Hz Hr
                ltac:(lia) Hacc12 Hneg)].
  erewrite (write_cell_ok z "result" 11%nat _ _ _ r); try done.
  - cbn [book df sent]. rewrite list_insert_insert_eq. do 2 f_equal.
    rewrite lookup_insert_ne; [reflexivity |]. by intros [=].
  - cbn [df]. by rewrite length_insert.
  - cbn [df]. apply list_lookup_insert_eq. by eapply lookup_lt_Some.
  - rewrite length_insert. lia.
Qed.

(** The state it leaves when the response column takes its text and the
    result column refuses its own: the first write stays done. *)
Lemma write_to_excel_half z result w r cells e :
  iloc_pos (length (df w)) z = Some r ->
  df w !! r = Some cells ->
  (13 <= length cells)%nat ->
  -1 <= z ->
  column_rejects 12%nat (Val (PStr (response_str seconds_repr (r_response result)))) = None ->
  column_rejects 11%nat (Val (PStr (r_result result))) = Some e ->
  write_to_excel seconds_repr column_rejects listlike_rows (PInt z) result w
  = (Ok tt,
     {| df := <[r := <[12%nat := Val (PStr (response_str seconds_repr
                                               (r_response result)))]> cells]>
                (df w);
        book :=
          <[(z + 2, 13) :=
              cell_after (default blank_cell (book w !! (z + 2, 13)))
                         (response_str seconds_repr (r_response result)) PNone]>
            (book w);
        sent := sent w |}).
Proof.
  intros Hz Hr Hlen Hneg Hacc12 Hrej11. unfold write_to_excel.
  erewrite try_except_raise; [reflexivity |].
  erewrite bind_ok;
    [| exact (write_cell_ok z "response" 12%nat _ PNone w r cells eq_refl Hz Hr
                ltac:(lia) Hacc12 Hneg)].
  eapply (write_cell_rejected z "result" 11%nat _ _ _ r); try done.
  - cbn [df]. by rewrite length_insert.
  - cbn [df]. apply list_lookup_insert_eq. by eapply lookup_lt_Some.
  - rewrite length_insert. lia.
Qed.

(** And when the response column refuses its text nothing is written at
    all: the failure is swallowed. *)
Lemma write_to_excel_refused z result w r cells e :
  iloc_pos (length (df w)) z = Some r ->
  df w !! r = Some cells ->
  (13 <= length cells)%nat ->
  column_rejects 12%nat (Val (PStr (response_str seconds_repr (r_response result)))) = Some e ->
  write_to_excel seconds_repr column_rejects listlike_rows (PInt z) result w = (Ok tt, w).
Proof.
  intros Hz Hr Hlen Hrej. unfold write_to_excel.
  erewrite try_except_raise; [reflexivity |].
  apply bind_raise.
  exact (write_cell_rejected z "response" 12%nat _ PNone w r cells e eq_refl Hz Hr
           ltac:(lia) Hrej).
Qed.



(** *** Dispatch *)


(** C2, as the code has it: when the session raises for the request,
    whatever the payload keyword, [send_request] does not raise and returns
    [None], and [Response.result] turns that into [None] again: no summary
    is built, so there is no status code 0. *)
Theorem failed_dispatch_returns_None url method data_type headers data w :
  (forall kw, exists e,
      session_request {| call_method := method; call_url := url; call_kw := kw;
                         call_payload := data; call_headers := headers |} = Raise e) ->
  exists w',
    send_request session_request url method data_type headers data w = (Ok None, w') /\
    dispatch session_request url method data_type headers data w = (Ok None, w').
Proof.
  intros Hfail.
  assert (Hsend : exists w',
             send_request session_request url method data_type headers data w
             = (Ok None, w')).
  { unfold send_request, try_except, bind, request, ret.
    repeat match goal with
           | |- context [if ?b then _ else _] => destruct b
           end;
      try (match goal with
           | |- context [session_request ?c] =>
               let kw := eval cbn in (call_kw c) in
               destruct (Hfail kw) as [e ->]
           end); eauto. }
  destruct Hsend as [w' Hsend]. exists w'. split; [done |].
  unfold dispatch. by rewrite (bind_ok _ _ _ None w' Hsend).
Qed.

(** *** The fragment check *)







(** *** The structured-text source *)

(** A document whose entries each hold one [Test] leaf yields the leaves in
    document order. *)
Lemma yaml_load_test_cases_leaves (tests : list pyval) w :
  yaml_load_test_cases
    (PDict [("Case", PList (map (fun v => PDict [("Test", v)]) tests))]) w
  = (Ok tests, w).
Proof.
  unfold yaml_load_test_cases.
  rewrite (bind_ok _ _ _ (PList (map (fun v => PDict [("Test", v)]) tests)) w) by done.
  rewrite (bind_ok _ _ _ (map (fun v => PDict [("Test", v)]) tests) w) by done.
  rewrite (bind_ok _ _ _ (map (fun v => [v]) tests) w).
  - unfold ret. do 2 f_equal. induction tests as [|v tests IH]; simpl; [done | by rewrite IH].
  - induction tests as [|v tests IH]; simpl; [done |].
    rewrite (bind_ok _ _ _ [v] w) by done.
    by rewrite (bind_ok _ _ _ _ w IH).
Qed.

(** A case of the structured-text source that is not to run is skipped
    with nothing sent. *)
Lemma yaml_skip_sends_nothing case name run w :
  py_getitem case "name" = Ok name ->
  py_getitem case "run" = Ok (PStr run) ->
  lower run <> "yes" ->
  run_test (test_yaml_api session_request seconds_repr case) w = (Skipped, w).
Proof.
  intros Hname Hrun Hflag. unfold run_test, test_yaml_api.
  rewrite (bind_ok _ _ _ name w) by (by rewrite lift_run, Hname).
  rewrite (bind_ok _ _ _ (PStr run) w) by (by rewrite lift_run, Hrun).
  rewrite (bind_ok _ _ _ (lower run) w) by done.
  rewrite (proj2 (String.eqb_neq _ _) Hflag). cbn [negb].
  by rewrite (bind_ok _ _ _ name w) by (by rewrite lift_run, Hname).
Qed.

End Properties.

(** ** The properties on concrete inputs *)

(** C1: for a case and a response on which the three checks of the rule
    hold, [execute_test_case] still answers [fail], with the text of the
    TypeError raised by indexing the stringified body. *)
Theorem matching_response_is_failed w :
  Spec.verdict (PInt 200) (PStr "ok") (PStr "'id': 1") 200 Fixture.user_body = "pass" /\
  fst (execute_test_case Fixture.answers_ok Fixture.get_user w) =
    Ok {| r_name := PStr "get_user";
          r_result := "fail";
          r_response :=
            Some (Text (error_prefix +:+ "string indices must be integers, not 'str'")) |}.
Proof. split; [by vm_compute | reflexivity]. Qed.

(** C2 as stated fails: with a session that times out, dispatching the
    request of [get_user] gives no summary at all, hence none with status
    code 0. *)
Lemma timeout_gives_no_summary :
  ~ exists r,
      fst (dispatch Fixture.times_out (PStr "http://h/api/user/1") (PStr "GET")
             (PStr "params") (PDict []) PNone Fixture.world0) = Ok (Some r)
      /\ code r = 0.
Proof. intros (r & H & _). vm_compute in H. discriminate. Qed.

Lemma failed_dispatch_returns_None_witness :
  exists w',
    send_request Fixture.times_out (PStr "http://h/api/user/1") (PStr "GET")
      (PStr "params") (PDict []) PNone Fixture.world0 = (Ok None, w') /\
    dispatch Fixture.times_out (PStr "http://h/api/user/1") (PStr "GET")
      (PStr "params") (PDict []) PNone Fixture.world0 = (Ok None, w').
Proof.
  apply (failed_dispatch_returns_None Fixture.times_out).
  intros kw. eexists. reflexivity.
Defined.

Lemma load_test_cases_after_first_row_witness :
  exists cases,
    load_test_cases Fixture.eval_literal "http://h" "secret" Samples.first_read
    = (Ok cases, Samples.first_read) /\
    length cases = (length (tail Fixture.sheet) - 1)%nat /\
    (forall i cells, (1 <= i)%nat -> tail Fixture.sheet !! i = Some cells ->
       exists headers payload,
         headers_of Fixture.eval_literal "secret" cells = Ok headers /\
         evaluated Fixture.eval_literal cells 4 PNone = Ok payload /\
         cases !! (i - 1)%nat
         = Some (case_of_cells "http://h" (Z.of_nat i) cells headers payload)) /\
    (forall w2, df w2 = read_excel Fixture.sheet ->
       load_test_cases Fixture.eval_literal "http://h" "secret" w2 = (Ok cases, w2)).
Proof.
  apply (load_test_cases_after_first_row Fixture.eval_literal "http://h" "secret"
           (nth 0 Fixture.sheet []) (tail Fixture.sheet) Samples.first_read);
    [reflexivity |].
  intros [|[|i]] cells Hi Hcells; simpl in Hcells; try lia; try discriminate;
    injection Hcells as <-; reflexivity.
Defined.

(** C3 as stated fails: the sheet has two data rows under its header row,
    and one load returns one record, the one of the second data row. *)
Lemma two_data_rows_give_one_case :
  length (tail Fixture.sheet) = 2%nat /\
  load_test_cases Fixture.eval_literal "http://h" "secret" Samples.first_read
  = (Ok [Samples.list_users_at_1], Samples.first_read).
Proof. split; reflexivity. Qed.




(** With a session that times out the case is failed, the text being the
    one of subscripting [None]. *)
Example timed_out_case_is_failed :
  fst (execute_test_case Fixture.times_out Fixture.get_user Fixture.world0) =
    Ok {| r_name := PStr "get_user";
          r_result := "fail";
          r_response :=
            Some (Text (error_prefix +:+ "'NoneType' object is not subscriptable")) |}.
Proof. reflexivity. Qed.


(** The body of the answer is not empty, and holds the empty fragment; the
    verdict is 'fail' all the same. *)
Example nonempty_body_empty_fragment :
  py_in (PStr "") (py_str Fixture.user_body) = Ok true /\
  fst (execute_test_case Fixture.answers_ok Fixture.get_user_row Fixture.world0) =
    Ok {| r_name := PStr "get_user";
          r_result := "fail";
          r_response :=
            Some (Text (error_prefix +:+ "string indices must be integers, not 'str'")) |}.
Proof. split; reflexivity. Qed.

Lemma spreadsheet_status_never_matches_witness :
  load_test_cases Fixture.eval_literal "http://h" "secret" Fixture.world0
  = (Ok Fixture.loaded, Fixture.world0) /\
  forall case,
    case ∈ Fixture.loaded ->
    exists expected s,
      py_getitem case "expected" = Ok expected /\
      py_getitem expected "status_code" = Ok (PStr s) /\
      forall actual_code, py_eq (PStr s) (PInt actual_code) = false.
Proof.
  split; [reflexivity |].
  apply (spreadsheet_status_never_matches Fixture.eval_literal "http://h" "secret"
           Fixture.world0 Fixture.loaded Fixture.world0).
  reflexivity.
Defined.

Lemma authorization_injected_at_load_witness :
  load_test_cases Fixture.eval_literal "http://h" "secret" Fixture.world0
  = (Ok Fixture.loaded, Fixture.world0) /\
  sent Fixture.world0 = sent Fixture.world0 /\
  forall case,
    case ∈ Fixture.loaded ->
    py_getitem case "token" = Ok (PStr "yes") ->
    exists request headers,
      py_getitem case "request" = Ok request /\
      py_getitem request "headers" = Ok headers /\
      py_getitem headers "Authorization" = Ok (PStr "secret").
Proof.
  split; [reflexivity |].
  apply (authorization_injected_at_load Fixture.eval_literal "http://h" "secret"
           Fixture.world0 Fixture.loaded Fixture.world0).
  reflexivity.
Defined.

Lemma write_cell_frame_witness :
  let run := _write_cell Fixture.converts Fixture.positions (PInt 1) "result" "pass"
               (PStr "pass") Fixture.world0 in
  (forall p, p <> (1 + 2, Z.of_nat 11 + 1) -> book (snd run) !! p = book Fixture.world0 !! p) /\
  (fst run = Ok tt ->
   exists c, book (snd run) !! (1 + 2, Z.of_nat 11 + 1) = Some c /\ value c = PStr "pass") /\
  (forall i j, (iloc_pos (length Fixture.sheet) 1 <> Some i \/ j <> 11%nat) ->
               df_at (df (snd run)) i j = df_at Fixture.sheet i j) /\
  sent (snd run) = [].
Proof.
  apply (write_cell_frame Fixture.converts Fixture.positions 1 "result" 11%nat "pass"
           (PStr "pass") Fixture.world0).
  reflexivity.
Defined.


(** With the pandas that keeps the types of the columns and a sheet whose
    response column is empty, the text is refused and the failure swallowed:
    the write-back of a skipped case returns and nothing has changed. *)
Example refused_text_writes_nothing :
  write_to_excel pretty (Fixture.keeps_types Fixture.sheet) Fixture.positions
    (PInt 2) (create_result (PStr "list_users") "skip" None) Fixture.world0
  = (Ok tt, Fixture.world0).
Proof. reflexivity. Qed.

(** ** Further properties of the engine *)

Open Scope list_scope.

Lemma py_eq_str_inv v s : py_eq v (PStr s) = true -> v = PStr s.
Proof.
  destruct v; simpl; try discriminate.
  intros H. apply String.eqb_eq in H. by subst.
Qed.

Lemma py_eq_str_ne v s : v <> PStr s -> py_eq v (PStr s) = false.
Proof.
  intros Hne. destruct (py_eq v (PStr s)) eqn:E; [| done].
  by apply py_eq_str_inv in E.
Qed.

Lemma sends_ret {A} (a : A) : sends_at_most 0 (ret a).
Proof. intros w. simpl. repeat split. exists []. by rewrite app_nil_r. Qed.

Lemma sends_lift {A} (c : completion A) : sends_at_most 0 (lift c).
Proof. intros w. simpl. repeat split. exists []. by rewrite app_nil_r. Qed.

Lemma sends_raise {A} (e : exn) : sends_at_most 0 (@raise A e).
Proof. intros w. simpl. repeat split. exists []. by rewrite app_nil_r. Qed.

Lemma sends_weaken {A} n k (m : M A) :
  (n <= k)%nat -> sends_at_most n m -> sends_at_most k m.
Proof.
  intros Hle Hm w. destruct (Hm w) as (? & ? & calls & ? & ?).
  repeat split; [done | done |]. exists calls. split; [done | lia].
Qed.

Lemma sends_bind {A B} n k (m : M A) (f : A -> M B) :
  sends_at_most n m -> (forall a, sends_at_most k (f a)) ->
  sends_at_most (n + k) (bind m f).
Proof.
  intros Hm Hf w. unfold bind.
  destruct (Hm w) as (Hd & Hb & calls & Hs & Hn).
  destruct (m w) as [[a|e] w1]; simpl in *.
  - destruct (Hf a w1) as (Hd' & Hb' & calls' & Hs' & Hn').
    repeat split; [congruence | congruence |].
    exists (calls ++ calls'). rewrite Hs', Hs, length_app, <- app_assoc.
    split; [done | lia].
  - repeat split; [done | done |]. exists calls. split; [done | lia].
Qed.

Lemma sends_try_except {A} n k (m : M A) (h : exn -> M A) :
  sends_at_most n m -> (forall e, sends_at_most k (h e)) ->
  sends_at_most (n + k) (try_except m h).
Proof.
  intros Hm Hh w. unfold try_except.
  destruct (Hm w) as (Hd & Hb & calls & Hs & Hn).
  destruct (m w) as [[a|e] w1]; simpl in *.
  - repeat split; [done | done |]. exists calls. split; [done | lia].
  - destruct (Hh e w1) as (Hd' & Hb' & calls' & Hs' & Hn').
    repeat split; [congruence | congruence |].
    exists (calls ++ calls'). rewrite Hs', Hs, length_app, <- app_assoc.
    split; [done | lia].
Qed.

(** *** Stripped texts *)

Lemma string_app_cons x (a b : string) : String x a +:+ b = String x (a +:+ b).
Proof. reflexivity. Qed.

Lemma string_app_nil_r (a : string) : a +:+ "" = a.
Proof. induction a as [|x a IH]; [done |]. by rewrite string_app_cons, IH. Qed.

Lemma string_app_assoc (a b c : string) : (a +:+ b) +:+ c = a +:+ (b +:+ c).
Proof.
  induction a as [|x a IH]; [done |]. by rewrite !string_app_cons, IH.
Qed.

Lemma lstrip_unfold s :
  lstrip s = match space_head s with
             | Some rest => lstrip rest
             | None => s
             end.
Proof.
  destruct s as [|a [|b [|c s3]]]; cbn [lstrip space_head]; [done | | |].
  - by destruct (is_space a).
  - destruct (is_space a); [done |]. by destruct (is_space2 a b).
  - destruct (is_space a); [done |]. destruct (is_space2 a b); [done |].
    by destruct (is_space3 a b c).
Qed.

Lemma space_head_shorter s rest :
  space_head s = Some rest -> (String.length rest < String.length s)%nat.
Proof.
  destruct s as [|a [|b [|c s3]]]; cbn [space_head]; [done | | |].
  - destruct (is_space a); [| done]. intros [= <-]. simpl. lia.
  - destruct (is_space a); [intros [= <-]; simpl; lia |].
    destruct (is_space2 a b); [| done]. intros [= <-]. simpl. lia.
  - destruct (is_space a); [intros [= <-]; simpl; lia |].
    destruct (is_space2 a b); [intros [= <-]; simpl; lia |].
    destruct (is_space3 a b c); [| done]. intros [= <-]. simpl. lia.
Qed.

(** Induction along the white-space characters a string starts with. *)
Lemma space_ind (P : string -> Prop) :
  (forall s, space_head s = None -> P s) ->
  (forall s rest, space_head s = Some rest -> P rest -> P s) ->
  forall s, P s.
Proof.
  intros Hnone Hsome s.
  remember (String.length s) as n eqn:Hn. revert s Hn.
  induction n as [n IH] using lt_wf_ind. intros s ->.
  destruct (space_head s) as [rest|] eqn:E; [| by apply Hnone].
  apply (Hsome s rest E).
  by apply (IH (String.length rest)); [apply space_head_shorter |].
Qed.

Lemma lstrip_head s : space_head (lstrip s) = None.
Proof.
  induction s as [s H | s rest H IH] using space_ind; rewrite lstrip_unfold, H; done.
Qed.

Lemma lstrip_id s : space_head s = None -> lstrip s = s.
Proof. intros H. by rewrite lstrip_unfold, H. Qed.

Lemma space_head_app p rest q :
  space_head p = Some rest -> space_head (p +:+ q) = Some (rest +:+ q).
Proof.
  intros H.
  destruct p as [|a [|b [|c p3]]]; cbn [space_head] in H; [done | | |];
    rewrite ?string_app_cons; cbn [space_head].
  - destruct (is_space a); [| done]. by injection H as <-.
  - destruct (is_space a); [by injection H as <- |].
    destruct (is_space2 a b); [| done]. by injection H as <-.
  - destruct (is_space a); [by injection H as <- |].
    destruct (is_space2 a b); [by injection H as <- |].
    destruct (is_space3 a b c); [| done]. by injection H as <-.
Qed.

Lemma rstrip_cons a s :
  rstrip (String a s) = match lstrip (String a s) with
                        | EmptyString => EmptyString
                        | String _ _ => String a (rstrip s)
                        end.
Proof. reflexivity. Qed.

(** What [rstrip] drops is white space only. *)
Lemma rstrip_split s : exists q, s = rstrip s +:+ q /\ lstrip q = "".
Proof.
  induction s as [|a s (q & Hq & Hblank)]; [by exists "" |].
  rewrite rstrip_cons. destruct (lstrip (String a s)) eqn:E.
  - by exists (String a s).
  - exists q. split; [| done]. rewrite string_app_cons. by rewrite <- Hq.
Qed.

Lemma blank_app p q : lstrip p = "" -> lstrip q = "" -> lstrip (p +:+ q) = "".
Proof.
  intros Hp Hq. induction p as [p H | p rest H IH] using space_ind.
  - rewrite (lstrip_id p H) in Hp. by subst p.
  - rewrite lstrip_unfold, H in Hp.
    rewrite lstrip_unfold, (space_head_app _ _ q H). by apply IH.
Qed.

Lemma rstrip_idemp s : rstrip (rstrip s) = rstrip s.
Proof.
  induction s as [|a s IH]; [done |].
  rewrite rstrip_cons. destruct (lstrip (String a s)) eqn:E; [done |].
  rewrite rstrip_cons. destruct (lstrip (String a (rstrip s))) eqn:E2.
  - destruct (rstrip_split s) as (q & Hq & Hblank).
    pose proof (blank_app _ _ E2 Hblank) as H.
    rewrite string_app_cons, <- Hq in H. congruence.
  - by rewrite IH.
Qed.

Lemma space_head_rstrip s : space_head s = None -> space_head (rstrip s) = None.
Proof.
  intros H. destruct (rstrip_split s) as (q & Hq & _).
  destruct (space_head (rstrip s)) as [rest|] eqn:E; [| done].
  apply (space_head_app _ _ q) in E. rewrite <- Hq in E. congruence.
Qed.

Lemma strip_idemp s : strip (strip s) = strip s.
Proof.
  unfold strip.
  rewrite (lstrip_id (rstrip (lstrip s))) by (apply space_head_rstrip, lstrip_head).
  apply rstrip_idemp.
Qed.

Lemma cell_text_stripped c : strip (cell_text c) = cell_text c.
Proof.
  unfold cell_text. destruct (notna c); [apply strip_idemp | done].
Qed.

Lemma cell_after_idemp old val style :
  cell_after (cell_after old val style) val style = cell_after old val style.
Proof.
  unfold cell_after. destruct (py_truthy style && is_int_or_str style); [| done].
  by destruct (lookup_key (py_str style) STYLES) as [[? ?]|].
Qed.

Lemma set_rows_again rs col c (d : DataFrame) :
  set_rows rs col c (set_rows rs col c d) = set_rows rs col c d.
Proof.
  unfold set_rows. apply list_eq. intros i. rewrite !list_lookup_imap.
  destruct (d !! i) as [cells|]; [| done]. simpl.
  destruct (bool_decide (i ∈ rs)); [| done].
  by rewrite list_insert_insert_eq.
Qed.

(** *** Computations that agree on two states *)

Lemma reads_run {A} (m : M A) w : reads_only_df m -> m w = (fst (m w), w).
Proof. intros Hm. rewrite (Hm w). done. Qed.

Lemma agree_bind {A B} (m : M A) (f : A -> M B) w1 w2 :
  reads_only_df m ->
  fst (m w1) = fst (m w2) ->
  (forall a, fst (f a w1) = fst (f a w2)) ->
  fst (bind m f w1) = fst (bind m f w2).
Proof.
  intros Hm Hag Hf. unfold bind.
  rewrite (reads_run m w1 Hm), (reads_run m w2 Hm), Hag.
  destruct (fst (m w2)); [apply Hf | done].
Qed.

Lemma agree_mapM {A B} (f : A -> M B) l w1 w2 :
  (forall a, reads_only_df (f a)) ->
  (forall a, a ∈ l -> fst (f a w1) = fst (f a w2)) ->
  fst (mapM f l w1) = fst (mapM f l w2).
Proof.
  intros Hr Hf. induction l as [|a l IH]; simpl; [done |].
  apply agree_bind; [done | apply Hf; by left | intros b].
  apply agree_bind; [by apply reads_mapM | apply IH; intros ? ?; apply Hf; by right |].
  done.
Qed.

Lemma mapM_raises {A B} (f : A -> M B) l w a e :
  (forall a, reads_only_df (f a)) ->
  a ∈ l -> fst (f a w) = Raise e ->
  exists e', mapM f l w = (Raise e', w).
Proof.
  intros Hr Hin Ha. induction l as [|b l IH]; [by apply elem_of_nil in Hin |].
  simpl. destruct (fst (f b w)) as [x|e0] eqn:Eb.
  - rewrite (bind_ok _ _ _ x w) by (by rewrite (reads_run _ w (Hr b)), Eb).
    apply elem_of_cons in Hin as [-> | Hin]; [congruence |].
    destruct (IH Hin) as [e' He']. exists e'. by rewrite (bind_raise _ _ _ e' w He').
  - exists e0. apply bind_raise. by rewrite (reads_run _ w (Hr b)), Eb.
Qed.

(** *** Entries of a structured-text document *)

Lemma assoc_get_None k (d : list (string * pyval)) :
  k ∉ map fst d -> assoc_get k d = None.
Proof.
  induction d as [|[k' x] d IH]; simpl; [done |].
  intros Hk. apply not_elem_of_cons in Hk as [Hne Hk].
  rewrite (proj2 (String.eqb_neq _ _) Hne). by apply IH.
Qed.

Lemma filter_Test (kvs : list (string * pyval)) :
  NoDup (map fst kvs) ->
  map snd (filter (fun kv => String.eqb (fst kv) "Test" = true) kvs)
  = option_list (assoc_get "Test" kvs).
Proof.
  induction kvs as [|[k x] kvs IH]; [done |].
  cbn [map fst]. intros Hnd. apply NoDup_cons in Hnd as [Hk Hnd].
  rewrite filter_cons. cbn [assoc_get fst]. rewrite (String.eqb_sym "Test" k).
  destruct (String.eqb k "Test") eqn:E.
  - apply String.eqb_eq in E as ->.
    rewrite decide_True by done. cbn [map snd option_list].
    by rewrite (IH Hnd), (assoc_get_None _ _ Hk).
  - rewrite decide_False by done. by apply IH.
Qed.

Section MoreProperties.

Context (py_eval : string -> completion pyval)
        (API_HOST TOKEN : string)
        (session_request : HttpCall -> completion HttpResponse)
        (seconds_repr : Z -> string)
        (column_rejects : nat -> cell -> option exn)
        (listlike_rows : nat -> pyval -> nat -> cell -> completion (list nat)).

(** *** Dispatch *)

Lemma send_request_run kw url method headers data w :
  let call := {| call_method := method; call_url := url; call_kw := kw;
                 call_payload := data; call_headers := headers |} in
  send_request session_request url method (PStr (kw_name kw)) headers data w
  = (Ok (match session_request call with
         | Ok res => Some res
         | Raise _ => None
         end),
     {| df := df w; book := book w; sent := sent w ++ [call] |}).
Proof.
  destruct kw; simpl; unfold send_request, try_except, bind, request, ret; simpl;
    by destruct (session_request _).
Qed.

(** X1: for each of the four payload modes, [send_request] makes exactly
    one call through the session, with the keyword of the mode and the
    method, url, payload and headers it was given, and returns the response
    of the session, or [None] when the session raised. *)
Theorem send_request_one_call kw url method headers data w :
  let call := {| call_method := method; call_url := url; call_kw := kw;
                 call_payload := data; call_headers := headers |} in
  send_request session_request url method (PStr (kw_name kw)) headers data w
  = (Ok (match session_request call with
         | Ok res => Some res
         | Raise _ => None
         end),
     {| df := df w; book := book w; sent := sent w ++ [call] |}).
Proof. exact (send_request_run kw url method headers data w). Qed.

(** X2: with a payload mode that is none of the four, [send_request] sends
    nothing, returns [None] and leaves the state as it was. *)
Theorem send_request_unsupported_mode url method data_type headers data w :
  (forall kw, data_type <> PStr (kw_name kw)) ->
  send_request session_request url method data_type headers data w = (Ok None, w).
Proof.
  intros Hne. unfold send_request, try_except.
  rewrite (py_eq_str_ne data_type "params" (Hne KwParams)),
    (py_eq_str_ne data_type "data" (Hne KwData)),
    (py_eq_str_ne data_type "json" (Hne KwJson)),
    (py_eq_str_ne data_type "file" (Hne KwFiles)).
  done.
Qed.

(** X3: for each of the four payload modes, the summary handed to the
    validation is built exactly when the session answered and the body of
    the answer parsed as JSON: its code is the status code, its body the
    string of the parsed value, its time the elapsed time; a session that
    raised and an answer that is not JSON both give [None], and the one call
    is in the trace in every case. *)
Theorem dispatch_summary kw url method headers data w :
  let call := {| call_method := method; call_url := url; call_kw := kw;
                 call_payload := data; call_headers := headers |} in
  dispatch session_request url method (PStr (kw_name kw)) headers data w
  = (Ok (match session_request call with
         | Ok r =>
             match json r with
             | Ok parsed =>
                 Some {| code := status_code r; body := py_str parsed;
                         time_total := elapsed r |}
             | Raise _ => None
             end
         | Raise _ => None
         end),
     {| df := df w; book := book w; sent := sent w ++ [call] |}).
Proof.
  intros call. unfold dispatch.
  rewrite (bind_ok _ _ _ _ _ (send_request_run kw url method headers data w)).
  fold call. unfold Response_result, try_except, bind, lift, raise, ret.
  destruct (session_request call) as [r|e]; [| done].
  by destruct (json r).
Qed.

(** *** Execution of one case *)

Lemma sends_request call : sends_at_most 1 (request session_request call).
Proof.
  intros w. unfold request. simpl. repeat split. exists [call]. by split.
Qed.

Lemma sends_send_request url method data_type headers data :
  sends_at_most 1 (send_request session_request url method data_type headers data).
Proof.
  unfold send_request. apply (sends_try_except 1 0); [| intros ?; apply sends_ret].
  repeat match goal with
         | |- context [if ?b then _ else _] => destruct b
         end;
    first [ apply (sends_bind 1 0); [apply sends_request | intros ?; apply sends_ret]
          | apply (sends_weaken 0 1); [lia | apply sends_ret] ].
Qed.

Lemma sends_Response_result res : sends_at_most 0 (Response_result res).
Proof.
  unfold Response_result. apply (sends_try_except 0 0); [| intros ?; apply sends_ret].
  destruct res; [| apply sends_raise].
  apply (sends_bind 0 0); [apply sends_lift | intros ?; apply sends_ret].
Qed.

Lemma sends_dispatch url method data_type headers data :
  sends_at_most 1 (dispatch session_request url method data_type headers data).
Proof.
  unfold dispatch.
  apply (sends_bind 1 0); [apply sends_send_request | intros ?; apply sends_Response_result].
Qed.

Lemma sends_getitem2 case k1 k2 : sends_at_most 0 (getitem2 case k1 k2).
Proof.
  unfold getitem2. apply (sends_bind 0 0); [apply sends_lift | intros ?; apply sends_lift].
Qed.

Lemma sends_execute_test_case case :
  sends_at_most 1 (execute_test_case session_request case).
Proof.
  unfold execute_test_case. apply (sends_try_except 1 0).
  - unfold execute_body.
    do 5 (apply (sends_bind 0 1); [first [apply sends_getitem2 | apply sends_lift] | intros ?]).
    apply (sends_bind 1 0); [apply sends_dispatch | intros ?].
    repeat (apply (sends_bind 0 0);
            [first [apply sends_getitem2 | apply sends_lift] | intros ?]).
    apply sends_ret.
  - intros e. apply (sends_bind 0 0); [apply sends_lift | intros ?; apply sends_ret].
Qed.

(** X4: whatever the case and the session, [execute_test_case] leaves the
    cached DataFrame and the workbook as they were and adds at most one
    call to the session trace. *)
Theorem execute_test_case_sends_at_most_one case w :
  df (snd (execute_test_case session_request case w)) = df w /\
  book (snd (execute_test_case session_request case w)) = book w /\
  exists calls : list HttpCall,
    sent (snd (execute_test_case session_request case w)) = sent w ++ calls /\
    (length calls <= 1)%nat.
Proof. exact (sends_execute_test_case case w). Qed.

(** X5: a case from which ['request'] cannot be read (the key is missing,
    or the case is no mapping) is failed with the text of that exception
    after the fixed prefix, and nothing is sent. *)
Theorem execute_test_case_missing_request case name e w :
  py_getitem case "name" = Ok name ->
  py_getitem case "request" = Raise e ->
  execute_test_case session_request case w
  = (Ok (create_result name "fail" (Some (Text (error_prefix +:+ exn_str e)))), w).
Proof.
  intros Hname Hreq. unfold execute_test_case.
  rewrite (try_except_raise _ _ w e w).
  - by rewrite (bind_ok _ _ _ name w) by (by rewrite lift_run, Hname).
  - unfold execute_body, getitem2.
    apply bind_raise. apply bind_raise. by rewrite lift_run, Hreq.
Qed.

Lemma execute_fails case name w :
  py_getitem case "name" = Ok name ->
  exists e w',
    execute_test_case session_request case w
    = (Ok (create_result name "fail" (Some (Text (error_prefix +:+ exn_str e)))), w').
Proof.
  intros Hname. unfold execute_test_case.
  destruct (execute_body_raises session_request case w) as (e & w1 & Hbody).
  rewrite (try_except_raise _ _ _ _ _ Hbody).
  rewrite (bind_ok _ _ _ name w1) by (by rewrite lift_run, Hname).
  by eexists _, _.
Qed.

(** X6: for a case that has a name, [execute_test_case] always returns a
    result named after the case whose verdict is 'fail' and whose response
    is an error text: no input yields 'pass' or a response summary. *)
Theorem execute_test_case_always_fail case name w :
  py_getitem case "name" = Ok name ->
  exists text w',
    execute_test_case session_request case w
    = (Ok (create_result name "fail" (Some (Text text))), w').
Proof.
  intros Hname. destruct (execute_fails case name w Hname) as (e & w' & H).
  by eexists _, _.
Qed.

Lemma getitem2_ok case k1 k2 x y w :
  py_getitem case k1 = Ok x -> py_getitem x k2 = Ok y ->
  getitem2 case k1 k2 w = (Ok y, w).
Proof.
  intros H1 H2. unfold getitem2.
  rewrite (bind_ok _ _ _ x w) by (by rewrite lift_run, H1).
  by rewrite lift_run, H2.
Qed.

(** X7: when no summary comes back for a case whose request fields and
    expected status can be read (the session raised, the answer was not
    JSON, or the payload mode is unknown), the case is failed with the text
    of subscripting [None] after the prefix. *)
Theorem execute_test_case_without_summary
  case name request url method data headers data_type expected sc w w' :
  py_getitem case "name" = Ok name ->
  py_getitem case "request" = Ok request ->
  py_getitem request "url" = Ok url ->
  py_getitem request "method" = Ok method ->
  py_getitem request "data" = Ok data ->
  py_getitem request "headers" = Ok headers ->
  py_getitem case "type" = Ok data_type ->
  py_getitem case "expected" = Ok expected ->
  py_getitem expected "status_code" = Ok sc ->
  dispatch session_request url method data_type headers data w = (Ok None, w') ->
  execute_test_case session_request case w
  = (Ok (create_result name "fail"
           (Some (Text (error_prefix +:+ "'NoneType' object is not subscriptable")))),
     w').
Proof.
  intros Hname Hreq Hurl Hmeth Hdata Hhead Htype Hexp Hsc Hdisp.
  unfold execute_test_case.
  rewrite (try_except_raise _ _ w
             (TypeError "'NoneType' object is not subscriptable") w').
  - by rewrite (bind_ok _ _ _ name w') by (by rewrite lift_run, Hname).
  - unfold execute_body.
    rewrite (bind_ok _ _ _ _ _ (getitem2_ok _ _ _ _ _ w Hreq Hurl)).
    rewrite (bind_ok _ _ _ _ _ (getitem2_ok _ _ _ _ _ w Hreq Hmeth)).
    rewrite (bind_ok _ _ _ _ _ (getitem2_ok _ _ _ _ _ w Hreq Hdata)).
    rewrite (bind_ok _ _ _ _ _ (getitem2_ok _ _ _ _ _ w Hreq Hhead)).
    rewrite (bind_ok _ _ _ data_type w) by (by rewrite lift_run, Htype).
    rewrite (bind_ok _ _ _ _ _ Hdisp).
    rewrite (bind_ok _ _ _ _ _ (getitem2_ok _ _ _ _ _ w' Hexp Hsc)).
    by apply bind_raise.
Qed.

(** X8: when a summary comes back for a case whose request fields, expected
    status and expected message can be read, the case is failed with the
    text of indexing a string with a string key after the prefix, whatever
    the status code and the body are. *)
Theorem execute_test_case_with_summary
  case name request url method data headers data_type expected sc msg summary w w' :
  py_getitem case "name" = Ok name ->
  py_getitem case "request" = Ok request ->
  py_getitem request "url" = Ok url ->
  py_getitem request "method" = Ok method ->
  py_getitem request "data" = Ok data ->
  py_getitem request "headers" = Ok headers ->
  py_getitem case "type" = Ok data_type ->
  py_getitem case "expected" = Ok expected ->
  py_getitem expected "status_code" = Ok sc ->
  py_getitem expected "msg" = Ok msg ->
  dispatch session_request url method data_type headers data w = (Ok (Some summary), w') ->
  execute_test_case session_request case w
  = (Ok (create_result name "fail"
           (Some (Text (error_prefix +:+ "string indices must be integers, not 'str'")))),
     w').
Proof.
  intros Hname Hreq Hurl Hmeth Hdata Hhead Htype Hexp Hsc Hmsg Hdisp.
  unfold execute_test_case.
  rewrite (try_except_raise _ _ w
             (TypeError "string indices must be integers, not 'str'") w').
  - by rewrite (bind_ok _ _ _ name w') by (by rewrite lift_run, Hname).
  - unfold execute_body.
    rewrite (bind_ok _ _ _ _ _ (getitem2_ok _ _ _ _ _ w Hreq Hurl)).
    rewrite (bind_ok _ _ _ _ _ (getitem2_ok _ _ _ _ _ w Hreq Hmeth)).
    rewrite (bind_ok _ _ _ _ _ (getitem2_ok _ _ _ _ _ w Hreq Hdata)).
    rewrite (bind_ok _ _ _ _ _ (getitem2_ok _ _ _ _ _ w Hreq Hhead)).
    rewrite (bind_ok _ _ _ data_type w) by (by rewrite lift_run, Htype).
    rewrite (bind_ok _ _ _ _ _ Hdisp).
    rewrite (bind_ok _ _ _ _ _ (getitem2_ok _ _ _ _ _ w' Hexp Hsc)).
    rewrite (bind_ok _ _ _ (code summary) w') by done.
    rewrite (bind_ok _ _ _ _ _ (getitem2_ok _ _ _ _ _ w' Hexp Hmsg)).
    rewrite (bind_ok _ _ _ (body summary) w') by done.
    by apply bind_raise.
Qed.

(** *** Cells of the spreadsheet *)

(** X9: [_get_cell_value] does not check its arguments: a column name
    outside the schema raises KeyError with that name, and a row beyond the
    rows of the DataFrame in either direction raises IndexError; the state
    is untouched in both cases. *)
Theorem get_cell_value_errors row col_name w :
  (lookup_key col_name COLUMNS = None ->
   _get_cell_value row col_name w = (Raise (KeyError col_name), w)) /\
  (forall col,
     lookup_key col_name COLUMNS = Some col ->
     Z.of_nat (length (df w)) <= row \/ row < - Z.of_nat (length (df w)) ->
     exists text, _get_cell_value row col_name w = (Raise (IndexError text), w)).
Proof.
  split.
  - intros Hcol. unfold _get_cell_value, COLUMNS_getitem. rewrite Hcol.
    by apply bind_raise.
  - intros col Hcol Hrow. unfold _get_cell_value, COLUMNS_getitem. rewrite Hcol.
    rewrite (bind_ok _ _ _ col w) by done.
    rewrite (bind_ok _ _ _ (df w) w) by done.
    eexists. apply bind_raise. rewrite lift_run. unfold iloc_get, iloc_pos.
    destruct Hrow as [Hrow | Hrow].
    + rewrite (proj2 (Z.ltb_ge _ _)) by lia. rewrite andb_false_r.
      rewrite (proj2 (Z.ltb_ge _ _)) by lia. reflexivity.
    + rewrite (proj2 (Z.leb_gt _ _)) by lia. simpl.
      rewrite (proj2 (Z.leb_gt _ _)) by lia. by rewrite andb_false_r.
Qed.

(** X10: every text [_get_cell_value] returns is already stripped:
    stripping it again gives it back; and reading leaves the state as it
    was. *)
Theorem get_cell_value_stripped row col_name w s w' :
  _get_cell_value row col_name w = (Ok s, w') ->
  strip s = s /\ w' = w.
Proof.
  intros H. unfold _get_cell_value in H.
  apply bind_Ok_inv in H as (col & w1 & H1 & H).
  apply bind_Ok_inv in H as (d & w2 & H2 & H).
  apply bind_Ok_inv in H as (c & w3 & H3 & H).
  unfold lift, get_df, ret in *.
  inversion H1; inversion H2; inversion H3; inversion H; subst.
  split; [apply cell_text_stripped | done].
Qed.

Lemma iloc_set_again (d d' : DataFrame) row col c :
  iloc_set column_rejects listlike_rows d row col c = Ok d' ->
  iloc_set column_rejects listlike_rows d' row col c = Ok d'.
Proof.
  intros H.
  assert (Hrest :
    match listlike_rows (length d) row col c with
    | Ok rs => Ok (set_rows rs col c d)
    | Raise e => Raise e
    end = Ok d' ->
    match listlike_rows (length d') row col c with
    | Ok rs => Ok (set_rows rs col c d')
    | Raise e => Raise e
    end = Ok d').
  { destruct (listlike_rows (length d) row col c) as [rs|] eqn:E; [| done].
    intros [= <-]. unfold set_rows at 1. rewrite length_imap, E.
    by rewrite set_rows_again. }
  destruct row as [| | z | | |]; try exact (Hrest H).
  apply iloc_set_Ok_inv in H as (r & cells & Hz & Hr & Hc & Hacc & ->).
  pose proof (lookup_lt_Some _ _ _ Hr) as Hlt.
  erewrite iloc_set_at.
  - by rewrite list_insert_insert_eq, list_insert_insert_eq.
  - by rewrite length_insert.
  - by apply list_lookup_insert_eq.
  - by rewrite length_insert.
  - done.
Qed.

Lemma iloc_get_set (d d' : DataFrame) z col c :
  iloc_set column_rejects listlike_rows d (PInt z) col c = Ok d' ->
  iloc_get d' z col = Ok c.
Proof.
  intros H. apply iloc_set_Ok_inv in H as (r & cells & Hz & Hr & Hc & _ & ->).
  pose proof (lookup_lt_Some _ _ _ Hr) as Hlt.
  unfold iloc_get. rewrite length_insert, Hz.
  rewrite list_lookup_insert_eq by done.
  by rewrite list_lookup_insert_eq.
Qed.

(** X11: [_write_cell] is idempotent: doing the same write a second time
    completes the same way and leaves the state the first write left,
    whether the write succeeds or raises. *)
Theorem write_cell_idempotent row col_name val style w :
  _write_cell column_rejects listlike_rows row col_name val style
    (snd (_write_cell column_rejects listlike_rows row col_name val style w))
  = _write_cell column_rejects listlike_rows row col_name val style w.
Proof.
  rewrite (write_cell_run _ _ row col_name val style w).
  destruct (COLUMNS_getitem col_name) as [col|e] eqn:Ecol;
    [| cbn [snd]; by rewrite write_cell_run, Ecol].
  destruct (iloc_set column_rejects listlike_rows (df w) row col (Val (PStr val)))
    as [d'|e] eqn:Eset;
    [| cbn [snd]; by rewrite write_cell_run, Ecol, Eset].
  pose proof (iloc_set_again _ _ _ _ _ Eset) as Eset'.
  destruct (row_plus_2 row) as [r|e] eqn:Erow;
    [| cbn [snd]; rewrite write_cell_run, Ecol; cbn [df book sent];
       by rewrite Eset', Erow].
  unfold sheet_cell.
  destruct ((r <? 1) || (Z.of_nat col + 1 <? 1)) eqn:Epos.
  - rewrite write_cell_run, Ecol. cbn [snd df book sent].
    rewrite Eset', Erow. unfold sheet_cell. by rewrite Epos.
  - rewrite write_cell_run, Ecol. cbn [snd df book sent].
    rewrite Eset', Erow. unfold sheet_cell. rewrite Epos.
    rewrite lookup_insert_eq. cbn [default id].
    by rewrite cell_after_idemp, insert_insert_eq.
Qed.

(** X12: after a write that completed, reading the same cell of the cached
    DataFrame returns the written text stripped. *)
Theorem write_then_read z col_name val style w w' :
  _write_cell column_rejects listlike_rows (PInt z) col_name val style w = (Ok tt, w') ->
  _get_cell_value z col_name w' = (Ok (strip val), w').
Proof.
  rewrite write_cell_run. intros H.
  destruct (COLUMNS_getitem col_name) as [col|e] eqn:Ecol; [| done].
  destruct (iloc_set column_rejects listlike_rows (df w) (PInt z) col (Val (PStr val)))
    as [d'|e] eqn:Eset; [| done].
  cbn [row_plus_2] in H.
  destruct (sheet_cell (book w) (z + 2) (Z.of_nat col + 1)) as [c|e]; [| done].
  injection H as Hw.
  assert (Hdf : df w' = d') by (by rewrite <- Hw).
  unfold _get_cell_value.
  rewrite (bind_ok _ _ _ col w') by (by rewrite lift_run, Ecol).
  rewrite (bind_ok _ _ _ d' w') by (by unfold get_df; rewrite Hdf).
  rewrite (bind_ok _ _ _ (Val (PStr val)) w'); [done |].
  by rewrite lift_run, (iloc_get_set _ _ _ _ _ Eset).
Qed.

(** X13: [write_to_excel] swallows the failure of a row that cannot be
    addressed.  For an integer beyond the rows of the DataFrame it returns
    normally and nothing has changed, neither in the DataFrame nor in the
    workbook.  For a row that is a list it returns normally too, and the
    workbook is as it was: whatever pandas stored in the DataFrame for the
    list, the sheet row cannot be computed from it. *)
Theorem write_to_excel_bad_row result w :
  (forall z, iloc_pos (length (df w)) z = None ->
     write_to_excel seconds_repr column_rejects listlike_rows (PInt z) result w
     = (Ok tt, w)) /\
  (forall items, exists w',
     write_to_excel seconds_repr column_rejects listlike_rows (PList items) result w
     = (Ok tt, w') /\ book w' = book w /\ sent w' = sent w).
Proof.
  split.
  - intros z Hrow. unfold write_to_excel, try_except, bind.
    rewrite write_cell_run.
    change (COLUMNS_getitem "response") with (@Ok nat 12%nat). cbv iota.
    unfold iloc_set. by rewrite Hrow.
  - intros items. unfold write_to_excel, try_except, bind.
    rewrite write_cell_run.
    change (COLUMNS_getitem "response") with (@Ok nat 12%nat). cbv iota.
    destruct (iloc_set _ _ (df w) (PList items) 12%nat _) as [d'|e]; by eexists.
Qed.

(** X14: a write that completed stores the value whatever the style is;
    the font becomes bold with the colour of the style when the style is one
    of the names of [STYLES], and stays the font the cell had (the default
    font for a new cell) when the style is [None] or a name [STYLES] does
    not know. *)
Theorem write_cell_style z col_name col val style w w' :
  COLUMNS_getitem col_name = Ok col ->
  _write_cell column_rejects listlike_rows (PInt z) col_name val style w = (Ok tt, w') ->
  exists c,
    book w' !! (z + 2, Z.of_nat col + 1) = Some c /\
    value c = PStr val /\
    (forall name n rgb,
       style = PStr name -> lookup_key name STYLES = Some (n, rgb) ->
       font c = {| font_name := None; font_size := None; bold := true;
                   italic := false; color := Some rgb |}) /\
    (style = PNone \/ (exists name, style = PStr name /\ lookup_key name STYLES = None) ->
     font c = font (default blank_cell (book w !! (z + 2, Z.of_nat col + 1)))).
Proof.
  intros Hcol. rewrite write_cell_run, Hcol. intros H.
  destruct (iloc_set column_rejects listlike_rows (df w) (PInt z) col (Val (PStr val)))
    as [d'|e]; [| done].
  cbn [row_plus_2] in H.
  unfold sheet_cell in H.
  destruct ((z + 2 <? 1) || (Z.of_nat col + 1 <? 1)); [done |].
  injection H as <-. cbn [book]. eexists. rewrite lookup_insert_eq.
  split; [done |]. split; [apply value_cell_after |]. split.
  - intros name n rgb -> Hname. unfold cell_after. cbn [py_str is_int_or_str].
    rewrite Hname. destruct name; [done |]. done.
  - intros [-> | (name & -> & Hname)]; [done |].
    unfold cell_after. cbn [py_str]. rewrite Hname.
    by destruct (py_truthy (PStr name) && is_int_or_str (PStr name)).
Qed.

(** *** Loading *)

Lemma agree_get_cell_value row col_name w1 w2 :
  (forall col, iloc_get (df w1) row col = iloc_get (df w2) row col) ->
  fst (_get_cell_value row col_name w1) = fst (_get_cell_value row col_name w2).
Proof.
  intros Hrow. unfold _get_cell_value, bind, lift, get_df, ret.
  destruct (COLUMNS_getitem col_name) as [col|]; [| done].
  rewrite (Hrow col). by destruct (iloc_get (df w2) row col).
Qed.

Lemma agree_eval_cell row col_name dflt w1 w2 :
  (forall col, iloc_get (df w1) row col = iloc_get (df w2) row col) ->
  fst (eval_cell py_eval row col_name dflt w1)
  = fst (eval_cell py_eval row col_name dflt w2).
Proof.
  intros Hrow. unfold eval_cell.
  apply agree_bind; [apply reads_get_cell_value | by apply agree_get_cell_value |].
  intros c. destruct (negb (String.eqb c "")); [| done].
  apply agree_bind; [apply reads_get_cell_value | by apply agree_get_cell_value |].
  done.
Qed.

Lemma agree_load_row row w1 w2 :
  (forall col, iloc_get (df w1) row col = iloc_get (df w2) row col) ->
  fst (load_row py_eval API_HOST TOKEN row w1)
  = fst (load_row py_eval API_HOST TOKEN row w2).
Proof.
  intros Hrow. unfold load_row.
  apply agree_bind; [apply reads_eval_cell | by apply agree_eval_cell | intros ?].
  apply agree_bind; [apply reads_get_cell_value | by apply agree_get_cell_value | intros ?].
  apply agree_bind;
    [apply reads_if; [apply reads_lift | apply reads_ret]
    | by destruct (String.eqb _ _) | intros ?].
  repeat (apply agree_bind;
          [ first [apply reads_get_cell_value | apply reads_eval_cell]
          | first [by apply agree_get_cell_value | by apply agree_eval_cell]
          | intros ? ]).
  done.
Qed.

(** X15: row 0 of the DataFrame plays no part in the load: two DataFrames
    that differ in row 0 only load the same list of cases, or fail with the
    same exception. *)
Theorem load_test_cases_ignores_row_0 w1 w2 row0 row0' rest :
  df w1 = row0 :: rest ->
  df w2 = row0' :: rest ->
  fst (load_test_cases py_eval API_HOST TOKEN w1)
  = fst (load_test_cases py_eval API_HOST TOKEN w2).
Proof.
  intros H1 H2. unfold load_test_cases, bind, get_df. rewrite H1, H2.
  cbn [length]. rewrite Nat.sub_succ, Nat.sub_0_r.
  apply agree_mapM; [intros ?; apply reads_load_row |].
  intros a Ha. apply list_elem_of_fmap in Ha as (i & -> & Hi).
  apply elem_of_seq in Hi. apply agree_load_row. intros col.
  unfold iloc_get. rewrite H1, H2. cbn [length].
  rewrite iloc_pos_nat by lia.
  destruct i as [|j]; [lia | done].
Qed.

(** X16: the load is all or nothing: when the turn of the loop for one row
    after row 0 raises, [load_test_cases] raises and returns no list, and
    the state is as before. *)
Theorem load_test_cases_all_or_nothing w i e :
  (1 <= i < length (df w))%nat ->
  fst (load_row py_eval API_HOST TOKEN (Z.of_nat i) w) = Raise e ->
  exists e', load_test_cases py_eval API_HOST TOKEN w = (Raise e', w).
Proof.
  intros Hi Hrow. unfold load_test_cases.
  rewrite (bind_ok _ _ _ (df w) w) by done.
  apply (mapM_raises _ _ _ (Z.of_nat i) e); [intros ?; apply reads_load_row | | done].
  apply list_elem_of_fmap. exists i. split; [done |].
  apply elem_of_seq. lia.
Qed.

(** *** Writing a result back *)

(** X17: writing the same result twice to a row of the DataFrame leaves
    the DataFrame, the workbook and the trace exactly as the first write
    left them. *)
Theorem write_to_excel_idempotent z result w cells :
  0 <= z < Z.of_nat (length (df w)) ->
  df w !! Z.to_nat z = Some cells ->
  (13 <= length cells)%nat ->
  exists w',
    write_to_excel seconds_repr column_rejects listlike_rows (PInt z) result w
    = (Ok tt, w') /\
    write_to_excel seconds_repr column_rejects listlike_rows (PInt z) result w'
    = (Ok tt, w').
Proof.
  intros Hz Hr Hlen.
  pose proof (iloc_pos_nonneg _ _ Hz) as Hpos.
  pose proof (lookup_lt_Some _ _ _ Hr) as Hlt.
  destruct (column_rejects 12%nat
              (Val (PStr (response_str seconds_repr (r_response result)))))
    as [e12|] eqn:E12.
  { exists w.
    pose proof (write_to_excel_refused seconds_repr column_rejects listlike_rows z result
                  w _ cells e12 Hpos Hr Hlen E12).
    by split. }
  destruct (column_rejects 11%nat (Val (PStr (r_result result)))) as [e11|] eqn:E11.
  - eexists. split.
    { exact (write_to_excel_half seconds_repr column_rejects listlike_rows z result
               w _ cells e11 Hpos Hr Hlen ltac:(lia) E12 E11). }
    rewrite (write_to_excel_half seconds_repr column_rejects listlike_rows z result _ (Z.to_nat z)
               (<[12%nat := Val (PStr (response_str seconds_repr (r_response result)))]>
                  cells) e11).
    + cbn [df book sent]. f_equal. f_equal.
      * by rewrite list_insert_insert_eq, list_insert_insert_eq.
      * rewrite lookup_insert_eq. cbn [default id].
        by rewrite cell_after_idemp, insert_insert_eq.
    + cbn [df]. by rewrite length_insert.
    + cbn [df]. by apply list_lookup_insert_eq.
    + rewrite length_insert. lia.
    + lia.
    + done.
    + done.
  - eexists. split.
    { exact (write_to_excel_state seconds_repr column_rejects listlike_rows z result
               w _ cells Hpos Hr Hlen ltac:(lia) E12 E11). }
    rewrite (write_to_excel_state seconds_repr column_rejects listlike_rows z result _ (Z.to_nat z)
               (<[11%nat := Val (PStr (r_result result))]>
                  (<[12%nat := Val (PStr (response_str seconds_repr (r_response result)))]>
                     cells))).
    + cbn [df book sent]. f_equal. f_equal.
      * rewrite list_insert_insert_eq. f_equal.
        rewrite (list_insert_insert_ne _ 12 11) by done.
        by rewrite list_insert_insert_eq, list_insert_insert_eq.
      * rewrite lookup_insert_eq.
        rewrite (lookup_insert_ne _ (z + 2, 12) (z + 2, 13)) by (by intros [=]).
        rewrite lookup_insert_eq. cbn [default id].
        rewrite !cell_after_idemp.
        rewrite (insert_insert_ne _ (z + 2, 13) (z + 2, 12)) by (by intros [=]).
        by rewrite insert_insert_eq, insert_insert_eq.
    + cbn [df]. by rewrite length_insert.
    + cbn [df]. by apply list_lookup_insert_eq.
    + rewrite !length_insert. lia.
    + lia.
    + done.
    + done.
Qed.

(** *** The structured-text source and its tests *)

Lemma reads_yaml_entry (a : pyval) :
  reads_only_df
    (kvs <- lift (py_items a) ;;
     ret (map snd (filter (fun kv => String.eqb (fst kv) "Test" = true) kvs))).
Proof. apply reads_bind; [apply reads_lift | intros ?; apply reads_ret]. Qed.

(** X18: for a document whose ['Case'] is a list of mappings,
    [yaml_load_test_cases] returns, in document order, the value under
    ['Test'] of every entry that has that key; the other entries
    contribute nothing, and the state is not touched. *)
Theorem yaml_load_test_cases_in_order data entries w :
  py_getitem data "Case" = Ok (PList entries) ->
  Forall is_mapping entries ->
  yaml_load_test_cases data w = (Ok (omap test_leaf entries), w).
Proof.
  intros Hcase Hall. unfold yaml_load_test_cases.
  rewrite (bind_ok _ _ _ (PList entries) w) by (by rewrite lift_run, Hcase).
  rewrite (bind_ok _ _ _ entries w) by done.
  rewrite (bind_ok _ _ _ (map (fun a => option_list (test_leaf a)) entries) w).
  - unfold ret. do 2 f_equal. clear Hcase Hall.
    induction entries as [|a entries IH]; simpl; [done |].
    rewrite IH. by destruct (test_leaf a).
  - clear Hcase. induction Hall as [|a entries Ha Hall IH]; simpl; [done |].
    destruct a as [| | | | |kvs]; try done. simpl in Ha.
    rewrite (bind_ok _ _ _ (option_list (assoc_get "Test" kvs)) w).
    + by rewrite (bind_ok _ _ _ _ w IH).
    + rewrite (bind_ok _ _ _ kvs w) by done. unfold ret.
      by rewrite (filter_Test kvs Ha).
Qed.

(** X19: a document that is not of that shape fails the load as a whole:
    when ['Case'] cannot be read the exception of the lookup is raised,
    and when one entry of the list is no mapping an exception is raised and
    no list is returned, whatever the other entries hold. *)
Theorem yaml_load_test_cases_malformed data w :
  (forall e, py_getitem data "Case" = Raise e ->
             yaml_load_test_cases data w = (Raise e, w)) /\
  (forall entries a,
     py_getitem data "Case" = Ok (PList entries) ->
     a ∈ entries ->
     (forall kvs, a <> PDict kvs) ->
     exists e, yaml_load_test_cases data w = (Raise e, w)).
Proof.
  split.
  - intros e Hcase. unfold yaml_load_test_cases.
    apply bind_raise. by rewrite lift_run, Hcase.
  - intros entries a Hcase Hin Ha. unfold yaml_load_test_cases.
    rewrite (bind_ok _ _ _ (PList entries) w) by (by rewrite lift_run, Hcase).
    rewrite (bind_ok _ _ _ entries w) by done.
    destruct (mapM_raises
                (fun a => kvs <- lift (py_items a) ;;
                          ret (map snd (filter (fun kv => String.eqb (fst kv) "Test" = true)
                                          kvs)))
                entries w a
                (AttributeError ("'" +:+ type_name a +:+ "' object has no attribute 'items'")))
      as [e He]; [apply reads_yaml_entry | done | |].
    + unfold bind, lift. destruct a; try done. by destruct (Ha entries0).
    + exists e. by apply bind_raise.
Qed.

Lemma sends_assert_pass case result :
  sends_at_most 0 (assert_pass seconds_repr case result).
Proof.
  unfold assert_pass. destruct (String.eqb _ _); [apply sends_ret |].
  do 3 (apply (sends_bind 0 0); [apply sends_lift | intros ?]).
  apply sends_raise.
Qed.

Lemma sends_test_yaml_api case :
  sends_at_most 1 (test_yaml_api session_request seconds_repr case).
Proof.
  unfold test_yaml_api.
  do 3 (apply (sends_bind 0 1); [apply sends_lift | intros ?]).
  destruct (negb _).
  - apply (sends_weaken 0 1); [lia |].
    apply (sends_bind 0 0); [apply sends_lift | intros ?; apply sends_ret].
  - apply (sends_bind 1 0); [apply sends_execute_test_case | intros ?].
    apply sends_assert_pass.
Qed.

(** X20: the test of the structured-text source never writes anything
    back: whatever the case and its outcome, the DataFrame and the workbook
    are as before the run, and at most one call was sent. *)
Theorem test_yaml_api_writes_nothing case w :
  let w' := snd (run_test (test_yaml_api session_request seconds_repr case) w) in
  df w' = df w /\ book w' = book w /\
  exists calls : list HttpCall, sent w' = sent w ++ calls /\ (length calls <= 1)%nat.
Proof.
  intros w'.
  assert (w' = snd (test_yaml_api session_request seconds_repr case w)) as ->.
  { subst w'. unfold run_test.
    by destruct (test_yaml_api session_request seconds_repr case w) as [[[]|e] w1]. }
  apply sends_test_yaml_api.
Qed.


End MoreProperties.

(** *** The placeholders of a structured-text file *)

Lemma with_prefix_app a b c :
  with_prefix a (with_prefix b c) = with_prefix (a +:+ b) c.
Proof. destruct c; [| done]. unfold with_prefix. by rewrite string_app_assoc. Qed.

Lemma with_prefix_empty c : with_prefix "" c = c.
Proof. by destruct c. Qed.

Section TemplateProperties.

Context (API_HOST TOKEN : string)
        (yaml_safe_load : string -> completion pyval)
        (invalid_placeholder : string -> nat -> string).

Abbreviation tscan := (scan API_HOST TOKEN invalid_placeholder).
Abbreviation tget := (mapping_getitem API_HOST TOKEN).
Abbreviation resolve := (resolve API_HOST TOKEN).

Lemma scan_plain_app template a b pos :
  has_char "$" a = false ->
  tscan template Plain pos (a +:+ b)
  = with_prefix a (tscan template Plain (pos + String.length a) b).
Proof.
  revert pos. induction a as [|c a IH]; intros pos Ha.
  - change ("" +:+ b) with b. cbn [String.length]. by rewrite with_prefix_empty, Nat.add_0_r.
  - cbn [has_char] in Ha. apply orb_false_elim in Ha as [Hc Ha].
    rewrite string_app_cons. cbn [scan]. rewrite Hc, (IH (S pos) Ha), with_prefix_app.
    change (String c "" +:+ a) with (String c a). cbn [String.length].
    by replace (pos + S (String.length a))%nat with (S pos + String.length a)%nat by lia.
Qed.

Lemma id_char_not_close c : is_id_char c = true -> Ascii.eqb c "}" = false.
Proof.
  intros H. destruct (Ascii.eqb c "}") eqn:E; [| done].
  apply Ascii.eqb_eq in E. subst. done.
Qed.

Lemma scan_braced template at_ acc named b pos :
  all_id_chars named = true ->
  tscan template (InBraced at_ acc) pos (named +:+ String "}" b)
  = match tget (acc +:+ named) with
    | Ok v => with_prefix v (tscan template Plain (S (pos + String.length named)) b)
    | Raise e => Raise e
    end.
Proof.
  revert acc pos. induction named as [|c named IH]; intros acc pos Hn.
  - change ("" +:+ String "}" b) with (String "}" b).
    rewrite string_app_nil_r. cbn [String.length]. rewrite Nat.add_0_r. reflexivity.
  - cbn [all_id_chars] in Hn. apply andb_prop in Hn as [Hc Hn].
    rewrite string_app_cons. cbn [scan]. rewrite Hc, (IH _ (S pos) Hn), string_app_assoc.
    change (String c "" +:+ named) with (String c named). cbn [String.length].
    by replace (S (S pos + String.length named)) with (S (pos + S (String.length named))) by lia.
Qed.

Lemma scan_var template named b pos :
  is_identifier named = true ->
  tscan template Plain pos ("${" +:+ named +:+ "}" +:+ b)
  = match tget named with
    | Ok v => with_prefix v (tscan template Plain (pos + (3 + String.length named)) b)
    | Raise e => Raise e
    end.
Proof.
  destruct named as [|c named]; [done |]. cbn [is_identifier]. intros Hn.
  apply andb_prop in Hn as [Hc Hn].
  change ("${" +:+ String c named +:+ "}" +:+ b)
    with (String "$" (String "{" (String c (named +:+ String "}" b)))).
  cbn [scan]. change (Ascii.eqb "$" "$") with true. cbv iota.
  change (Ascii.eqb "{" "$") with false. change (is_id_start "{") with false.
  change (Ascii.eqb "{" "{") with true. cbv iota. rewrite Hc.
  rewrite (scan_braced template pos (String c "") named b (S (S (S pos))) Hn).
  change (String c "" +:+ named) with (String c named). cbn [String.length].
  by replace (S (S (S (S pos)) + String.length named)) with (pos + (3 + S (String.length named)))%nat by lia.
Qed.

Lemma scan_template_of template segs pos :
  forallb well_formed segs = true ->
  tscan template Plain pos (template_of segs) = resolve segs.
Proof.
  revert pos. induction segs as [|seg segs IH]; intros pos Hwf; [done |].
  simpl in Hwf. apply andb_prop in Hwf as [Hseg Hwf].
  destruct seg as [text|named]; cbn [template_of resolve well_formed] in *.
  - apply negb_true_iff in Hseg.
    by rewrite (scan_plain_app _ _ _ _ Hseg), IH.
  - rewrite (scan_var template named (template_of segs) pos Hseg).
    destruct (tget named); [by rewrite IH | done].
Qed.

(** X22: for a file made of literal text without delimiter and of braced
    placeholders, [YamlPack.__init__] parses the text in which each
    [${host}] is replaced by the configured host and each [${token}] by the
    configured token, the rest being untouched; a placeholder of any other
    name raises the KeyError of the first such name, and nothing is
    parsed. *)
Theorem YamlPack_init_resolves segs :
  forallb well_formed segs = true ->
  YamlPack_init API_HOST TOKEN yaml_safe_load invalid_placeholder (template_of segs)
  = match resolve segs with
    | Ok re => yaml_safe_load re
    | Raise e => Raise e
    end.
Proof.
  intros Hwf. unfold YamlPack_init, substitute. by rewrite scan_template_of.
Qed.

(** X23: a delimiter that is followed by neither a second delimiter, nor a
    name, nor an opening brace (the end of the file, a digit, a space) makes
    [YamlPack.__init__] raise the ValueError of an invalid placeholder at
    the offset of that delimiter, when the text before it has no delimiter;
    nothing is parsed. *)
Theorem YamlPack_init_stray_delimiter before rest :
  has_char "$" before = false ->
  starts_no_placeholder rest = true ->
  YamlPack_init API_HOST TOKEN yaml_safe_load invalid_placeholder
    (before +:+ String "$" rest)
  = Raise (ValueError (invalid_placeholder (before +:+ String "$" rest) (String.length before))).
Proof.
  intros Hb Hrest. unfold YamlPack_init, substitute.
  rewrite (scan_plain_app _ _ _ _ Hb). cbn [scan Nat.add].
  change (Ascii.eqb "$" "$") with true. cbv iota.
  destruct rest as [|c rest]; cbn [scan with_prefix]; [done |].
  cbn [starts_no_placeholder] in Hrest. apply andb_prop in Hrest as [Hrest H3].
  apply andb_prop in Hrest as [H1 H2].
  apply negb_true_iff in H1, H2, H3. by rewrite H1, H2, H3.
Qed.

End TemplateProperties.

(** ** The further properties on concrete inputs *)

Lemma send_request_unsupported_mode_witness :
  send_request Fixture.answers_ok (PStr "http://h/api") (PStr "GET") (PStr "xml")
    (PDict []) PNone Fixture.world0 = (Ok None, Fixture.world0).
Proof.
  apply (send_request_unsupported_mode Fixture.answers_ok).
  intros []; discriminate.
Defined.

Lemma execute_test_case_missing_request_witness :
  py_getitem Samples.nameless_request "request" = Raise (KeyError "request") /\
  execute_test_case Fixture.answers_ok Samples.nameless_request Fixture.world0
  = (Ok (create_result (PStr "broken") "fail"
           (Some (Text (error_prefix +:+ exn_str (KeyError "request"))))),
     Fixture.world0).
Proof.
  split; [reflexivity |].
  apply (execute_test_case_missing_request Fixture.answers_ok); reflexivity.
Defined.

Lemma execute_test_case_always_fail_witness :
  exists text w',
    execute_test_case Fixture.answers_ok Fixture.get_user Fixture.world0
    = (Ok (create_result (PStr "get_user") "fail" (Some (Text text))), w').
Proof.
  apply (execute_test_case_always_fail Fixture.answers_ok). reflexivity.
Defined.

Lemma execute_test_case_without_summary_witness :
  exists w',
    dispatch Fixture.times_out (PStr "http://h/api/user/1") (PStr "GET") (PStr "params")
      (PDict []) PNone Fixture.world0 = (Ok None, w') /\
    execute_test_case Fixture.times_out Fixture.get_user Fixture.world0
    = (Ok (create_result (PStr "get_user") "fail"
             (Some (Text (error_prefix +:+ "'NoneType' object is not subscriptable")))),
       w').
Proof.
  eexists. split; [reflexivity |].
  eapply (execute_test_case_without_summary Fixture.times_out); reflexivity.
Defined.

Lemma execute_test_case_with_summary_witness :
  exists summary w',
    dispatch Fixture.answers_ok (PStr "http://h/api/user/1") (PStr "GET") (PStr "params")
      (PDict []) PNone Fixture.world0 = (Ok (Some summary), w') /\
    execute_test_case Fixture.answers_ok Fixture.get_user Fixture.world0
    = (Ok (create_result (PStr "get_user") "fail"
             (Some (Text (error_prefix +:+ "string indices must be integers, not 'str'")))),
       w').
Proof.
  eexists _, _. split; [reflexivity |].
  eapply (execute_test_case_with_summary Fixture.answers_ok); reflexivity.
Defined.

Lemma get_cell_value_errors_witness :
  _get_cell_value 1 "status" Fixture.world0 = (Raise (KeyError "status"), Fixture.world0) /\
  exists text,
    _get_cell_value 3 "name" Fixture.world0 = (Raise (IndexError text), Fixture.world0).
Proof.
  split.
  - apply (proj1 (get_cell_value_errors 1 "status" Fixture.world0)). reflexivity.
  - apply (proj2 (get_cell_value_errors 3 "name" Fixture.world0) 0%nat);
      [reflexivity | left; simpl; lia].
Defined.

(** The text is the one of numpy for the row. *)
Example row_3_of_3 :
  fst (_get_cell_value 3 "name" Fixture.world0)
  = Raise (IndexError "index 3 is out of bounds for axis 0 with size 3").
Proof. reflexivity. Qed.

Lemma get_cell_value_stripped_witness :
  _get_cell_value 1 "name" Fixture.world0 = (Ok "get_user", Fixture.world0) /\
  strip "get_user" = "get_user" /\ Fixture.world0 = Fixture.world0.
Proof.
  split; [reflexivity |].
  apply (get_cell_value_stripped 1 "name" Fixture.world0). reflexivity.
Defined.

Lemma write_then_read_witness :
  exists w',
    _write_cell Fixture.converts Fixture.positions (PInt 1) "result" "  pass "
      (PStr "pass") Fixture.world0 = (Ok tt, w') /\
    _get_cell_value 1 "result" w' = (Ok (strip "  pass "), w').
Proof.
  exists (snd (_write_cell Fixture.converts Fixture.positions (PInt 1) "result" "  pass "
                 (PStr "pass") Fixture.world0)).
  split; [reflexivity |].
  apply (write_then_read Fixture.converts Fixture.positions 1 "result" "  pass "
           (PStr "pass") Fixture.world0).
  reflexivity.
Defined.

Lemma write_to_excel_bad_row_witness :
  iloc_pos (length Fixture.sheet) 99 = None /\
  write_to_excel pretty Fixture.converts Fixture.positions (PInt 99)
    (create_result (PStr "get_user") "skip" None) Fixture.world0
  = (Ok tt, Fixture.world0).
Proof.
  split; [reflexivity |].
  apply (proj1 (write_to_excel_bad_row pretty Fixture.converts Fixture.positions
                  (create_result (PStr "get_user") "skip" None) Fixture.world0)).
  reflexivity.
Defined.

(** With the list [[1]] for row, pandas stores the text in row 1 of the
    DataFrame, and the workbook stays as it was. *)
Example list_row_reaches_the_frame_only :
  let w' := snd (write_to_excel pretty Fixture.converts Fixture.positions
                   (PList [PInt 1]) (create_result (PStr "get_user") "skip" None)
                   Fixture.world0) in
  df_at (df w') 1 12 = Some (Val (PStr "None")) /\ book w' = ∅.
Proof. split; reflexivity. Qed.

Lemma write_cell_style_witness :
  exists w' c,
    _write_cell Fixture.converts Fixture.positions (PInt 1) "result" "pass" (PStr "pass")
      Fixture.world0 = (Ok tt, w') /\
    book w' !! (1 + 2, Z.of_nat 11 + 1) = Some c /\
    value c = PStr "pass" /\
    font c = {| font_name := None; font_size := None; bold := true;
                italic := false; color := Some "00FF00" |}.
Proof.
  destruct (write_cell_style Fixture.converts Fixture.positions 1 "result" 11%nat "pass"
              (PStr "pass") Fixture.world0
              (snd (_write_cell Fixture.converts Fixture.positions (PInt 1) "result" "pass"
                      (PStr "pass") Fixture.world0))
              eq_refl eq_refl) as (c & Hc & Hv & Hstyle & _).
  exists (snd (_write_cell Fixture.converts Fixture.positions (PInt 1) "result" "pass"
                 (PStr "pass") Fixture.world0)), c.
  split; [reflexivity |]. split; [exact Hc |]. split; [exact Hv |].
  apply (Hstyle "pass" 3); reflexivity.
Defined.

Lemma load_test_cases_ignores_row_0_witness :
  fst (load_test_cases Fixture.eval_literal "http://h" "secret" Fixture.world0)
  = fst (load_test_cases Fixture.eval_literal "http://h" "secret"
           {| df := Samples.sheet_other_header; book := ∅; sent := [] |}).
Proof.
  eapply (load_test_cases_ignores_row_0 Fixture.eval_literal "http://h" "secret");
    reflexivity.
Defined.

Lemma load_test_cases_all_or_nothing_witness :
  fst (load_row Fixture.eval_literal "http://h" "secret" (Z.of_nat 1)
         {| df := Samples.sheet_bad_header; book := ∅; sent := [] |})
  = Raise (SyntaxError "invalid syntax") /\
  exists e',
    load_test_cases Fixture.eval_literal "http://h" "secret"
      {| df := Samples.sheet_bad_header; book := ∅; sent := [] |}
    = (Raise e', {| df := Samples.sheet_bad_header; book := ∅; sent := [] |}).
Proof.
  split; [reflexivity |].
  apply (load_test_cases_all_or_nothing Fixture.eval_literal "http://h" "secret" _ 1%nat
           (SyntaxError "invalid syntax")); [simpl; lia | reflexivity].
Defined.

Lemma write_to_excel_idempotent_witness :
  exists w',
    write_to_excel pretty Fixture.converts Fixture.positions (PInt 1)
      (create_result (PStr "get_user") "fail" None) Fixture.world0 = (Ok tt, w') /\
    write_to_excel pretty Fixture.converts Fixture.positions (PInt 1)
      (create_result (PStr "get_user") "fail" None) w' = (Ok tt, w').
Proof.
  apply (write_to_excel_idempotent pretty Fixture.converts Fixture.positions 1 _
           Fixture.world0 (nth 1 Fixture.sheet []));
    [simpl; lia | reflexivity | simpl; lia].
Defined.

Lemma yaml_load_test_cases_in_order_witness :
  yaml_load_test_cases Samples.document Fixture.world0
  = (Ok [Fixture.get_user; Fixture.list_users], Fixture.world0).
Proof.
  apply (yaml_load_test_cases_in_order Samples.document
           [PDict [("Test", Fixture.get_user)]; PDict [("Setup", PNone)];
            PDict [("Test", Fixture.list_users)]] Fixture.world0); [reflexivity |].
  repeat (apply List.Forall_cons; [apply NoDup_singleton |]). apply List.Forall_nil.
Defined.

Lemma yaml_load_test_cases_malformed_witness :
  yaml_load_test_cases (PDict []) Fixture.world0 = (Raise (KeyError "Case"), Fixture.world0) /\
  exists e, yaml_load_test_cases Samples.document_bad_entry Fixture.world0
            = (Raise e, Fixture.world0).
Proof.
  split.
  - apply (proj1 (yaml_load_test_cases_malformed (PDict []) Fixture.world0)). reflexivity.
  - apply (proj2 (yaml_load_test_cases_malformed Samples.document_bad_entry Fixture.world0)
             [PDict [("Test", Fixture.get_user)]; PStr "Test"] (PStr "Test"));
      [reflexivity | by right; left | discriminate].
Defined.


(** With the pandas that keeps the types of the columns and a sheet whose
    last two columns are empty, the same run ends on the same assertion and
    nothing reaches the sheet. *)
Example executed_case_refused_text :
  book (snd (run_test (test_excel_api Fixture.answers_ok pretty
                         (Fixture.keeps_types Fixture.sheet) Fixture.positions
                         Fixture.get_user_row) Fixture.world0)) = ∅.
Proof. reflexivity. Qed.

Lemma YamlPack_init_resolves_witness :
  YamlPack_init "http://h" "secret" Samples.parse_as_text Samples.message_at
    "url: ${host}/api, auth: ${token}"
  = Ok (PStr "url: http://h/api, auth: secret").
Proof.
  apply (YamlPack_init_resolves "http://h" "secret" Samples.parse_as_text
           Samples.message_at
           [Lit "url: "; Var "host"; Lit "/api, auth: "; Var "token"]).
  reflexivity.
Defined.

Lemma YamlPack_init_stray_delimiter_witness :
  YamlPack_init "http://h" "secret" Samples.parse_as_text Samples.message_at "price: $5"
  = Raise (ValueError (Samples.message_at "price: $5" 7)).
Proof.
  apply (YamlPack_init_stray_delimiter "http://h" "secret" Samples.parse_as_text
           Samples.message_at "price: " "5"); reflexivity.
Defined.
